(** * real-time-pbr: the window / shader-program manager and the material binder

    A shallow embedding of [src/gfx/game_window.cc] and [src/gfx/material.cc].

    The graphics backend (OpenGL, GLFW, glad), the maths library (glm), the
    camera, the model instances and the file system are collaborators that
    live outside the repository.  They are modelled the way the code sees
    them: every call the code makes is appended to a chronological history,
    and whatever a call hands back is read from a [Backend] record whose
    fields are arbitrary functions of the history that precedes the call.
    Nothing is assumed about those functions, so every theorem below holds
    for every deterministic backend. *)

From Stdlib Require Import ZArith List String Ascii Bool Lia.
From Stdlib Require Import Floats.SpecFloat.
Import ListNotations.
Local Open Scope string_scope.
Local Open Scope list_scope.
Local Open Scope Z_scope.

(** ** Single-precision scalars

    [GLfloat] and C++ [float] are IEEE-754 binary32 numbers: 24 bits of
    precision, largest exponent 128.  The standard library's [spec_float]
    gives their values and correctly rounded operations. *)

Module F32.

Definition prec : Z := 24.
Definition emax : Z := 128.

Definition t : Type := spec_float.

(** [(GLfloat)n] for an [int] n: round to nearest, ties to even. *)
Definition of_int (n : Z) : t := binary_normalize prec emax n 0 false.

(** [a / b] on floats. *)
Definition div (a b : t) : t := SFdiv prec emax a b.

(** The literals that appear in the sources. *)
Definition lit_0_0 : t := S754_zero false.                     (* 0.0f   *)
Definition lit_1_0 : t := S754_finite false 8388608 (-23).     (* 1.0f   *)
Definition lit_0_1 : t := S754_finite false 13421773 (-27).    (* 0.1f   *)
Definition lit_100_0 : t := S754_finite false 13107200 (-17).  (* 100.0f *)
Definition lit_45_0 : t := S754_finite false 11796480 (-18).   (* 45.0f  *)
Definition lit_0_03 : t := S754_finite false 16106127 (-29).   (* 0.03f  *)

End F32.

Definition GLfloat : Type := F32.t.

(** ** glm *)

Record vec4 : Type := mkVec4 { vx : GLfloat; vy : GLfloat; vz : GLfloat; vw : GLfloat }.

(** [glm::mat4]: four columns. *)
Record mat4 : Type := mkMat4 { col0 : vec4; col1 : vec4; col2 : vec4; col3 : vec4 }.

(** The glm functions the code calls, and the value of a default-constructed
    [glm::mat4] (the member [perspective_projection] is not named in the
    constructors' initialiser lists). *)
Record Glm : Type := mkGlm {
  radians : GLfloat -> GLfloat;
  perspective : GLfloat -> GLfloat -> GLfloat -> GLfloat -> mat4;
  mat4_default : mat4
}.

(** ** Constants of the OpenGL and GLFW headers *)

Definition GL_FALSE : Z := 0.
Definition GL_TRUE : Z := 1.
Definition GL_DEPTH_BUFFER_BIT : Z := 0x00000100.
Definition GL_COLOR_BUFFER_BIT : Z := 0x00004000.
Definition GL_DEPTH_TEST : Z := 0x0B71.
Definition GL_TEXTURE_2D : Z := 0x0DE1.
Definition GL_TEXTURE0 : Z := 0x84C0.
Definition GL_TEXTURE1 : Z := 0x84C1.
Definition GL_FRAGMENT_SHADER : Z := 0x8B30.
Definition GL_VERTEX_SHADER : Z := 0x8B31.
Definition GL_COMPILE_STATUS : Z := 0x8B81.
Definition GL_LINK_STATUS : Z := 0x8B82.

Definition GLFW_RESIZABLE : Z := 0x00020003.
Definition GLFW_CONTEXT_VERSION_MAJOR : Z := 0x00022002.
Definition GLFW_CONTEXT_VERSION_MINOR : Z := 0x00022003.
Definition GLFW_OPENGL_FORWARD_COMPAT : Z := 0x00022006.
Definition GLFW_OPENGL_PROFILE : Z := 0x00022008.
Definition GLFW_OPENGL_CORE_PROFILE : Z := 0x00032001.

(** ** Calls into the collaborators

    Handles ([GLuint]), locations ([GLint]), enums, [int]s and the pointers
    [GLFWwindow*], [gfx::Camera*], [gfx::ModelInstance*] are integers; the
    null pointer and the null handle are 0.  The code never does arithmetic
    on them, so no wrap-around is involved. *)

Inductive call : Type :=
| glfwInit
| glfwWindowHint (hint value : Z)
| glfwCreateWindow (width height : Z) (title : string)
| glfwTerminate
| glfwMakeContextCurrent (window : Z)
| gladLoadGL
| glfwWindowShouldClose (window : Z)
| glfwSetWindowSize (window width height : Z)
| glfwGetFramebufferSize (window : Z)
| glfwPollEvents
| glfwSwapBuffers (window : Z)
| glEnable (cap : Z)
| glClearColor (r g b a : GLfloat)
| glViewport (x y width height : Z)
| glClear (mask : Z)
| glCreateShader (shader_type : Z)
| glShaderSource (shader : Z) (source : string)
| glCompileShader (shader : Z)
| glGetShaderiv (shader pname : Z)
| glGetShaderInfoLog (shader max_length : Z)
| glDeleteShader (shader : Z)
| glCreateProgram
| glAttachShader (program shader : Z)
| glLinkProgram (program : Z)
| glGetProgramiv (program pname : Z)
| glGetProgramInfoLog (program max_length : Z)
| glUseProgram (program : Z)
| glGetUniformLocation (program : Z) (name : string)
| glUniformMatrix4fv (location count transpose : Z) (value : mat4)
| glUniform1f (location : Z) (v0 : GLfloat)
| glUniform1i (location v0 : Z)
| glActiveTexture (texture : Z)
| glBindTexture (target texture : Z)
| Camera_GetViewTransform (camera : Z)
| ModelInstance_Draw (model_instance program : Z)
| cout (text : string).

Definition history : Type := list call.

(** What a [std::ifstream] on a path gives when it is read to the end: all
    the bytes of the file; nothing, because the file could not be opened;
    or a read error on a file that did open (a directory, a failing
    device). *)
Inductive stream : Type :=
| Delivers (content : string)
| CannotOpen
| ReadError.

(** What the collaborators answer.  Each answer may depend on everything
    that happened before the call and on the call's arguments. *)
Record Backend : Type := mkBackend {
  (** the stream on the file at a path *)
  file_content : string -> stream;
  glfwCreateWindow_ret : history -> Z -> Z -> string -> Z;
  glfwWindowShouldClose_ret : history -> Z -> Z;
  glfwGetFramebufferSize_ret : history -> Z -> Z * Z;
  glCreateShader_ret : history -> Z -> Z;
  glGetShaderiv_ret : history -> Z -> Z -> Z;
  glGetShaderInfoLog_ret : history -> Z -> string;
  glCreateProgram_ret : history -> Z;
  glGetProgramiv_ret : history -> Z -> Z -> Z;
  glGetProgramInfoLog_ret : history -> Z -> string;
  glGetUniformLocation_ret : history -> Z -> string -> Z;
  Camera_GetViewTransform_ret : history -> Z -> mat4
}.

(** ** Member functions as computations

    A member function runs on its object ([self]) and on the history of
    calls; it returns a value or throws. *)

Inductive exn : Type :=
| GameWindowCannotBeInitializedException
| ios_base_failure.                      (* std::ios_base::failure *)

Inductive outcome (A : Type) : Type :=
| Returns (a : A)
| Throws (e : exn).
Arguments Returns {A} a.
Arguments Throws {A} e.

Record config (S : Type) : Type := mkConfig { self : S; hist : history }.
Arguments mkConfig {S} self hist.
Arguments self {S} c.
Arguments hist {S} c.

Definition M (S A : Type) : Type := config S -> outcome A * config S.

Definition ret {S A} (a : A) : M S A := fun c => (Returns a, c).

Definition bind {S A B} (m : M S A) (k : A -> M S B) : M S B :=
  fun c =>
    match m c with
    | (Returns a, c') => k a c'
    | (Throws e, c') => (Throws e, c')
    end.

Definition throw {S A} (e : exn) : M S A := fun c => (Throws e, c).

(** A step that makes no call and leaves the object alone. *)
Definition lift {S A} (o : outcome A) : M S A := fun c => (o, c).

(** Read a member, assign to the object. *)
Definition member {S A} (f : S -> A) : M S A := fun c => (Returns (f (self c)), c).
Definition assign {S} (f : S -> S) : M S unit :=
  fun c => (Returns tt, mkConfig (f (self c)) (hist c)).

(** Make a call and receive the backend's answer. *)
Definition extcall {S A} (c : call) (answer : history -> A) : M S A :=
  fun cfg => (Returns (answer (hist cfg)), mkConfig (self cfg) (hist cfg ++ [c])).

(** A call whose result the code does not use. *)
Definition emit {S} (c : call) : M S unit := extcall c (fun _ => tt).

Declare Scope gfx_scope.
Delimit Scope gfx_scope with gfx.
Notation "x <- m ;; k" := (bind m (fun x => k))
  (at level 61, m at next level, right associativity) : gfx_scope.
Notation "m ;; k" := (bind m (fun _ => k))
  (at level 61, right associativity) : gfx_scope.
Local Open Scope gfx_scope.

(** ** Text helpers *)

(** [std::endl] *)
Definition endl : string := String (ascii_of_nat 10) EmptyString.

(** What a [const char*] obtained with [c_str()] denotes when no length is
    passed along: the characters before the first NUL. *)
Fixpoint c_str (s : string) : string :=
  match s with
  | EmptyString => EmptyString
  | String c rest => if Ascii.eqb c zero then EmptyString else String c (c_str rest)
  end.

(** A [GLchar info_log[512]] filled by the backend: at most 511 characters
    and the terminator. *)
Definition info_log_512 (log : string) : string := substring 0 511 (c_str log).

(** [operator<<] on a [bool] (no [boolalpha]). *)
Definition show_bool (b : bool) : string := if b then "1" else "0".

(** ** gfx::GameWindow *)

(** [gfx::Color] is declared in a header that is not among the sources.  Its
    four members are read by [SetBufferClearColor]. *)
Record Color : Type := mkColor { r : GLfloat; g : GLfloat; b : GLfloat; a : GLfloat }.

(** Modelled from the spec: the three-argument constructor of [gfx::Color]
    is missing from the sources; the spec calls the default clear colour
    opaque black, so the alpha it fills in is 1. *)
Definition Color_rgb (r g b : GLfloat) : Color := mkColor r g b F32.lit_1_0.

Record GameWindow : Type := mkGameWindow {
  camera : Z;
  window : Z;
  field_of_view : GLfloat;
  program : Z;
  perspective_projection : mat4
}.

Definition set_window (w : Z) (this : GameWindow) : GameWindow :=
  mkGameWindow (camera this) w (field_of_view this) (program this)
    (perspective_projection this).
Definition set_field_of_view (fov : GLfloat) (this : GameWindow) : GameWindow :=
  mkGameWindow (camera this) (window this) fov (program this)
    (perspective_projection this).
Definition set_program (p : Z) (this : GameWindow) : GameWindow :=
  mkGameWindow (camera this) (window this) (field_of_view this) p
    (perspective_projection this).
Definition set_perspective_projection (m : mat4) (this : GameWindow) : GameWindow :=
  mkGameWindow (camera this) (window this) (field_of_view this) (program this) m.

(** [std::ifstream ifs(path); std::string content(istreambuf_iterator(ifs),
    istreambuf_iterator())]: a stream that failed to open has nothing to
    read, so the string is empty.  On a stream that did open, a failing
    read makes the stream buffer throw [std::ios_base::failure]; the
    iterators read the buffer directly, nothing in the sources catches the
    exception, and it leaves the function. *)
Definition read_all (files : string -> stream) (path : string) : outcome string :=
  match files path with
  | Delivers content => Returns content
  | CannotOpen => Returns EmptyString
  | ReadError => Throws ios_base_failure
  end.

(** [content.size()] *)
Definition size (s : string) : Z := Z.of_nat (String.length s).

Section GameWindow.

Variable glm : Glm.
Variable gl : Backend.

Definition IsRunning : M GameWindow bool :=
  w <- member window ;;
  close <- extcall (glfwWindowShouldClose w) (fun h => glfwWindowShouldClose_ret gl h w) ;;
  ret (close =? 0).

Definition SetBufferClearColor (color : Color) : M GameWindow unit :=
  emit (glClearColor (r color) (g color) (b color) (a color)).

Definition UpdatePerspectiveProjection (width height : Z) : M GameWindow unit :=
  fov <- member field_of_view ;;
  assign (set_perspective_projection
            (perspective glm (radians glm fov)
               (F32.div (F32.of_int width) (F32.of_int height))
               F32.lit_0_1 F32.lit_100_0)).

Definition UpdateDimensions (width height : Z) : M GameWindow unit :=
  w <- member window ;;
  emit (glfwSetWindowSize w width height) ;;
  real <- extcall (glfwGetFramebufferSize w) (fun h => glfwGetFramebufferSize_ret gl h w) ;;
  let real_width := fst real in
  let real_height := snd real in
  emit (glViewport 0 0 real_width real_height) ;;
  UpdatePerspectiveProjection real_width real_height.

Definition UpdateFieldOfView (fov : GLfloat) : M GameWindow unit :=
  assign (set_field_of_view fov) ;;
  w <- member window ;;
  real <- extcall (glfwGetFramebufferSize w) (fun h => glfwGetFramebufferSize_ret gl h w) ;;
  let real_width := fst real in
  let real_height := snd real in
  UpdatePerspectiveProjection real_width real_height.

Definition PollForEvents : M GameWindow unit := emit glfwPollEvents.

Definition InitializeGameWindow (width height : Z) (color : Color) : M GameWindow unit :=
  emit glfwInit ;;
  emit (glfwWindowHint GLFW_CONTEXT_VERSION_MAJOR 3) ;;
  emit (glfwWindowHint GLFW_CONTEXT_VERSION_MINOR 3) ;;
  emit (glfwWindowHint GLFW_OPENGL_PROFILE GLFW_OPENGL_CORE_PROFILE) ;;
  emit (glfwWindowHint GLFW_OPENGL_FORWARD_COMPAT GL_TRUE) ;;
  emit (glfwWindowHint GLFW_RESIZABLE GL_FALSE) ;;
  created <- extcall (glfwCreateWindow width height "OpenGL")
               (fun h => glfwCreateWindow_ret gl h width height "OpenGL") ;;
  assign (set_window created) ;;
  w <- member window ;;
  if w =? 0 then
    emit (cout ("Failed to create OpenGL context." ++ endl)%string) ;;
    emit glfwTerminate ;;
    throw GameWindowCannotBeInitializedException
  else
    emit (glfwMakeContextCurrent w) ;;
    emit gladLoadGL ;;
    emit (glEnable GL_DEPTH_TEST) ;;
    SetBufferClearColor color ;;
    UpdateDimensions width height.

Definition CompileShader (path : string) (shader_type : Z) : M GameWindow Z :=
  content <- lift (read_all (file_content gl) path) ;;
  if size content =? 0 then ret 0
  else
    shader <- extcall (glCreateShader shader_type)
                (fun h => glCreateShader_ret gl h shader_type) ;;
    emit (glShaderSource shader (c_str content)) ;;
    emit (glCompileShader shader) ;;
    success <- extcall (glGetShaderiv shader GL_COMPILE_STATUS)
                 (fun h => glGetShaderiv_ret gl h shader GL_COMPILE_STATUS) ;;
    if success =? 0 then
      info_log <- extcall (glGetShaderInfoLog shader 512)
                    (fun h => info_log_512 (glGetShaderInfoLog_ret gl h shader)) ;;
      emit (cout ("Shader compilation of '" ++ path ++ "' failed:" ++ endl
                    ++ info_log ++ endl)%string) ;;
      ret 0
    else ret shader.

Definition LinkProgram (vertex_path fragment_path : string) : M GameWindow Z :=
  vertex_shader <- CompileShader vertex_path GL_VERTEX_SHADER ;;
  frag_shader <- CompileShader fragment_path GL_FRAGMENT_SHADER ;;
  if (vertex_shader =? 0) || (frag_shader =? 0) then ret 0
  else
    linked_program <- extcall glCreateProgram (fun h => glCreateProgram_ret gl h) ;;
    emit (glAttachShader linked_program vertex_shader) ;;
    emit (glAttachShader linked_program frag_shader) ;;
    emit (glLinkProgram linked_program) ;;
    emit (glDeleteShader vertex_shader) ;;
    emit (glDeleteShader frag_shader) ;;
    success <- extcall (glGetProgramiv linked_program GL_LINK_STATUS)
                 (fun h => glGetProgramiv_ret gl h linked_program GL_LINK_STATUS) ;;
    if success =? 0 then
      info_log <- extcall (glGetProgramInfoLog linked_program 512)
                    (fun h => info_log_512 (glGetProgramInfoLog_ret gl h linked_program)) ;;
      emit (cout ("Failed to link shader program:" ++ endl ++ info_log ++ endl)%string) ;;
      ret 0
    else if linked_program =? 0 then
      emit (cout ("Failed to create shader program." ++ endl)%string) ;;
      emit glfwTerminate ;;
      ret 0
    else ret linked_program.

(** The body shared by the two constructors, run on the object the
    initialiser list has built. *)
Definition GameWindow_body (width height : Z) (vertex_path fragment_path : string)
    (color : Color) : M GameWindow unit :=
  InitializeGameWindow width height color ;;
  linked <- LinkProgram vertex_path fragment_path ;;
  assign (set_program linked) ;;
  p <- member program ;;
  if p =? 0 then throw GameWindowCannotBeInitializedException
  else ret tt.

(** A constructor either hands the caller the object it built or throws, in
    which case the caller gets no object. *)
Definition construct (init : GameWindow) (body : M GameWindow unit) (h : history)
    : outcome GameWindow * history :=
  match body (mkConfig init h) with
  | (Returns _, c) => (Returns (self c), hist c)
  | (Throws e, c) => (Throws e, hist c)
  end.

(** [GameWindow(width, height, vertex_path, fragment_path, camera, fov, color)] *)
Definition GameWindow_new (width height : Z) (vertex_path fragment_path : string)
    (camera : Z) (fov : GLfloat) (color : Color) : history -> outcome GameWindow * history :=
  construct (mkGameWindow camera 0 fov 0 (mat4_default glm))
    (GameWindow_body width height vertex_path fragment_path color).

(** [GameWindow(width, height, vertex_path, fragment_path, camera)] *)
Definition GameWindow_new_default (width height : Z) (vertex_path fragment_path : string)
    (camera : Z) : history -> outcome GameWindow * history :=
  construct (mkGameWindow camera 0 F32.lit_45_0 0 (mat4_default glm))
    (GameWindow_body width height vertex_path fragment_path
       (Color_rgb F32.lit_0_0 F32.lit_0_0 F32.lit_0_0)).

Definition PrepareRender : M GameWindow unit :=
  p <- member program ;;
  emit (glUseProgram p) ;;
  emit (glClear (Z.lor GL_COLOR_BUFFER_BIT GL_DEPTH_BUFFER_BIT)) ;;
  p <- member program ;;
  view_location <- extcall (glGetUniformLocation p "view")
                     (fun h => glGetUniformLocation_ret gl h p "view") ;;
  cam <- member camera ;;
  view <- extcall (Camera_GetViewTransform cam)
            (fun h => Camera_GetViewTransform_ret gl h cam) ;;
  emit (glUniformMatrix4fv view_location 1 GL_FALSE view) ;;
  p <- member program ;;
  projection_location <- extcall (glGetUniformLocation p "projection")
                           (fun h => glGetUniformLocation_ret gl h p "projection") ;;
  proj <- member perspective_projection ;;
  emit (glUniformMatrix4fv projection_location 1 GL_FALSE proj).

Definition RenderModel (model_instance : Z) : M GameWindow unit :=
  p <- member program ;;
  emit (ModelInstance_Draw model_instance p).

Definition FinishRender : M GameWindow unit :=
  w <- member window ;;
  emit (glfwSwapBuffers w).

End GameWindow.

(** ** gfx::Material *)

Record Material : Type := mkMaterial {
  shininess : GLfloat;
  ambient_coefficient : GLfloat;
  diffuse_handle : Z;
  specular_handle : Z
}.

Definition set_diffuse_handle (h : Z) (this : Material) : Material :=
  mkMaterial (shininess this) (ambient_coefficient this) h (specular_handle this).
Definition set_specular_handle (h : Z) (this : Material) : Material :=
  mkMaterial (shininess this) (ambient_coefficient this) (diffuse_handle this) h.

(** [Material(diffuse_handle, specular_handle, shininess, ambient)] *)
Definition Material_new (diffuse_handle specular_handle : Z) (shininess ambient : GLfloat)
    : Material :=
  mkMaterial shininess ambient diffuse_handle specular_handle.

(** [Material(diffuse_handle, specular_handle, shininess)] *)
Definition Material_new_default (diffuse_handle specular_handle : Z) (shininess : GLfloat)
    : Material :=
  Material_new diffuse_handle specular_handle shininess F32.lit_0_03.

(** A [bool] passed where a [GLint] is expected. *)
Definition int_of_bool (b : bool) : Z := if b then 1 else 0.

Section Material.

Variable gl : Backend.

Definition UseMaterial (program : Z) : M Material unit :=
  ambient_location <- extcall (glGetUniformLocation program "ambient_coefficient")
    (fun h => glGetUniformLocation_ret gl h program "ambient_coefficient") ;;
  ambient <- member ambient_coefficient ;;
  emit (glUniform1f ambient_location ambient) ;;
  shininess_location <- extcall (glGetUniformLocation program "shininess")
    (fun h => glGetUniformLocation_ret gl h program "shininess") ;;
  shine <- member shininess ;;
  emit (glUniform1f shininess_location shine) ;;

  diffuse_enabled_location <- extcall (glGetUniformLocation program "diffuse_enabled")
    (fun h => glGetUniformLocation_ret gl h program "diffuse_enabled") ;;
  diffuse <- member diffuse_handle ;;
  emit (glUniform1i diffuse_enabled_location (int_of_bool (negb (diffuse =? 0)))) ;;
  (if negb (diffuse =? 0) then
     emit (glActiveTexture GL_TEXTURE0) ;;
     emit (glBindTexture GL_TEXTURE_2D diffuse) ;;
     location <- extcall (glGetUniformLocation program "diffuse_texture")
       (fun h => glGetUniformLocation_ret gl h program "diffuse_texture") ;;
     emit (glUniform1i location 0)
   else ret tt) ;;

  specular_enabled_location <- extcall (glGetUniformLocation program "specular_enabled")
    (fun h => glGetUniformLocation_ret gl h program "specular_enabled") ;;
  specular <- member specular_handle ;;
  emit (cout ("specular_enabled " ++ show_bool (negb (specular =? 0)%Z) ++ endl)%string) ;;
  emit (glUniform1i specular_enabled_location (int_of_bool (negb (specular =? 0)))) ;;
  (if negb (specular =? 0) then
     emit (glActiveTexture GL_TEXTURE1) ;;
     emit (glBindTexture GL_TEXTURE_2D specular) ;;
     location <- extcall (glGetUniformLocation program "specular_texture")
       (fun h => glGetUniformLocation_ret gl h program "specular_texture") ;;
     emit (glUniform1i location 1)
   else ret tt).

Definition RemoveTexture (id : Z) : M Material unit :=
  diffuse <- member diffuse_handle ;;
  (if diffuse =? id then assign (set_diffuse_handle 0) else ret tt) ;;
  specular <- member specular_handle ;;
  (if specular =? id then assign (set_specular_handle 0) else ret tt).

End Material.

(** ** Reading the backend's state off a history *)

(** The viewport is what the last [glViewport] made it. *)
Definition viewport_step (vp : option (Z * Z * Z * Z)) (c : call) : option (Z * Z * Z * Z) :=
  match c with
  | glViewport x y width height => Some (x, y, width, height)
  | _ => vp
  end.
Definition current_viewport (h : history) : option (Z * Z * Z * Z) :=
  fold_left viewport_step h None.

(** The window size last asked for with [glfwSetWindowSize]. *)
Definition window_size_step (sz : option (Z * Z)) (c : call) : option (Z * Z) :=
  match c with
  | glfwSetWindowSize _ width height => Some (width, height)
  | _ => sz
  end.
Definition requested_window_size (h : history) : option (Z * Z) :=
  fold_left window_size_step h None.

(** Texture binds, each with the texture unit that was active when it was
    made.  [active] is the unit selected before the first call. *)
Fixpoint texture_binds (active : Z) (cs : list call) : list (Z * Z * Z) :=
  match cs with
  | [] => []
  | glActiveTexture unit :: rest => texture_binds unit rest
  | glBindTexture target texture :: rest => (active, target, texture) :: texture_binds active rest
  | _ :: rest => texture_binds active rest
  end.

(** The values written to integer uniforms, by location. *)
Fixpoint uniform1i_writes (cs : list call) : list (Z * Z) :=
  match cs with
  | [] => []
  | glUniform1i location v0 :: rest => (location, v0) :: uniform1i_writes rest
  | _ :: rest => uniform1i_writes rest
  end.

(** The program handles that calls refer to. *)
Definition program_of (c : call) : option Z :=
  match c with
  | glUseProgram p => Some p
  | glGetUniformLocation p _ => Some p
  | ModelInstance_Draw _ p => Some p
  | glAttachShader p _ => Some p
  | glLinkProgram p => Some p
  | glGetProgramiv p _ => Some p
  | glGetProgramInfoLog p _ => Some p
  | _ => None
  end.

Fixpoint programs_of (cs : list call) : list Z :=
  match cs with
  | [] => []
  | c :: rest =>
      match program_of c with
      | Some p => p :: programs_of rest
      | None => programs_of rest
      end
  end.

(** The draws, in order: which model instance, with which program. *)
Fixpoint draws_of (cs : list call) : list (Z * Z) :=
  match cs with
  | [] => []
  | ModelInstance_Draw m p :: rest => (m, p) :: draws_of rest
  | _ :: rest => draws_of rest
  end.

(** The frame protocol: [PrepareRender], one [RenderModel] per model
    instance, [FinishRender]. *)
Fixpoint render_all (models : list Z) : M GameWindow unit :=
  match models with
  | [] => ret tt
  | m :: rest => RenderModel m ;; render_all rest
  end.

Definition frame (gl : Backend) (models : list Z) : M GameWindow unit :=
  PrepareRender gl ;;
  render_all models ;;
  FinishRender.

(** The same backend with one file replaced. *)
Definition with_file (gl : Backend) (path : string) (content : stream) : Backend :=
  mkBackend
    (fun p => if String.eqb p path then content else file_content gl p)
    (glfwCreateWindow_ret gl) (glfwWindowShouldClose_ret gl)
    (glfwGetFramebufferSize_ret gl) (glCreateShader_ret gl) (glGetShaderiv_ret gl)
    (glGetShaderInfoLog_ret gl) (glCreateProgram_ret gl) (glGetProgramiv_ret gl)
    (glGetProgramInfoLog_ret gl) (glGetUniformLocation_ret gl)
    (Camera_GetViewTransform_ret gl).

(** ** Concrete backends, for running the code on examples

    Two well-formed shader files, one empty file, a directory and no other
    path; a display that is 1920 by 1080 pixels, so that a window never
    gets a larger framebuffer than that; shader handles numbered by the
    position of the call that creates them; compilation that always
    succeeds.  The link status and the handle [glCreateProgram] hands out
    are left open. *)

Definition demo_files (path : string) : stream :=
  if String.eqb path "shaders/basic.vert"
  then Delivers "void main() { gl_Position = vec4(0.0); }"
  else if String.eqb path "shaders/basic.frag" then Delivers "void main() { }"
  else if String.eqb path "shaders/empty.glsl" then Delivers ""
  else if String.eqb path "shaders" then ReadError
  else CannotOpen.

Definition demo_framebuffer (h : history) : Z * Z :=
  match requested_window_size h with
  | Some (width, height) => (Z.min width 1920, Z.min height 1080)
  | None => (0, 0)
  end.

Definition demo_row (x : GLfloat) : vec4 := mkVec4 x x x x.

(** A stand-in for glm that keeps the four arguments of [perspective]
    visible in the matrix. *)
Definition demo_glm : Glm :=
  mkGlm (fun degrees => degrees)
    (fun fovy aspect near far =>
       mkMat4 (demo_row fovy) (demo_row aspect) (demo_row near) (demo_row far))
    (mkMat4 (demo_row F32.lit_0_0) (demo_row F32.lit_0_0)
       (demo_row F32.lit_0_0) (demo_row F32.lit_0_0)).

Definition fresh_handle (h : history) : Z := Z.of_nat (Datatypes.S (List.length h)).

Definition demo_gl_with (link_status : Z) (new_program : history -> Z) : Backend :=
  mkBackend demo_files
    (fun _ _ _ _ => 4096)
    (fun _ _ => 0)
    (fun h _ => demo_framebuffer h)
    (fun h _ => fresh_handle h)
    (fun _ _ _ => 1)
    (fun _ _ => EmptyString)
    new_program
    (fun _ _ _ => link_status)
    (fun _ _ => "error: link failed")
    (fun _ _ name => Z.of_nat (String.length name))
    (fun _ _ => mat4_default demo_glm).

(** Linking succeeds. *)
Definition demo_gl : Backend := demo_gl_with 1 fresh_handle.

(** Linking fails. *)
Definition demo_gl_link_fails : Backend := demo_gl_with 0 fresh_handle.

(** The link status reads as success although no program object was made. *)
Definition demo_gl_null_program : Backend := demo_gl_with 1 (fun _ => 0).

Definition demo_window : GameWindow :=
  mkGameWindow 7 4096 F32.lit_45_0 20 (mat4_default demo_glm).

(** ** More readers of a history *)

(** The values written to float uniforms, by location. *)
Fixpoint uniform1f_writes (cs : list call) : list (Z * GLfloat) :=
  match cs with
  | [] => []
  | glUniform1f location v0 :: rest => (location, v0) :: uniform1f_writes rest
  | _ :: rest => uniform1f_writes rest
  end.

(** The uniform names looked up, each with the program it was looked up in. *)
Fixpoint uniform_lookups (cs : list call) : list (Z * string) :=
  match cs with
  | [] => []
  | glGetUniformLocation p name :: rest => (p, name) :: uniform_lookups rest
  | _ :: rest => uniform_lookups rest
  end.

(** The matrices uploaded, by location. *)
Fixpoint matrix_uploads (cs : list call) : list (Z * mat4) :=
  match cs with
  | [] => []
  | glUniformMatrix4fv location _ _ value :: rest => (location, value) :: matrix_uploads rest
  | _ :: rest => matrix_uploads rest
  end.

(** The shader objects deleted, and the number of program objects created. *)
Fixpoint deleted_shaders (cs : list call) : list Z :=
  match cs with
  | [] => []
  | glDeleteShader s :: rest => s :: deleted_shaders rest
  | _ :: rest => deleted_shaders rest
  end.

Fixpoint created_programs (cs : list call) : nat :=
  match cs with
  | [] => O
  | glCreateProgram :: rest => Datatypes.S (created_programs rest)
  | _ :: rest => created_programs rest
  end.

(** The shaders attached, each with the program it was attached to. *)
Fixpoint attached_shaders (cs : list call) : list (Z * Z) :=
  match cs with
  | [] => []
  | glAttachShader p s :: rest => (p, s) :: attached_shaders rest
  | _ :: rest => attached_shaders rest
  end.

(** The calls that [CompileShader] and [LinkProgram] can make. *)
Definition shader_stage_call (c : call) : bool :=
  match c with
  | glCreateShader _ | glShaderSource _ _ | glCompileShader _ | glGetShaderiv _ _
  | glGetShaderInfoLog _ _ | glDeleteShader _ | glCreateProgram | glAttachShader _ _
  | glLinkProgram _ | glGetProgramiv _ _ | glGetProgramInfoLog _ _ | glfwTerminate
  | cout _ => true
  | _ => false
  end.

(** The calls of the frame protocol and of the queries that leave the
    window as it is. *)
Definition frame_call (c : call) : bool :=
  match c with
  | glfwWindowShouldClose _ | glfwPollEvents | glfwSwapBuffers _ | glClearColor _ _ _ _
  | glClear _ | glUseProgram _ | glGetUniformLocation _ _ | glUniformMatrix4fv _ _ _ _
  | Camera_GetViewTransform _ | ModelInstance_Draw _ _ => true
  | _ => false
  end.

(** The framebuffer size the backend reported last.  The history records
    the calls; the answer to a query is what the backend says on the calls
    that precede it.  [before] is the part of the history already read. *)
Fixpoint framebuffer_answers (gl : Backend) (before : history) (cs : list call)
    (last : option (Z * Z)) : option (Z * Z) :=
  match cs with
  | [] => last
  | c :: rest =>
      framebuffer_answers gl (before ++ [c]) rest
        match c with
        | glfwGetFramebufferSize w => Some (glfwGetFramebufferSize_ret gl before w)
        | _ => last
        end
  end.

Definition last_framebuffer_size (gl : Backend) (h : history) : option (Z * Z) :=
  framebuffer_answers gl [] h None.

(** The projection matrix is the one for the object's field of view and
    the framebuffer size last reported. *)
Definition projection_consistent (glm : Glm) (gl : Backend) (this : GameWindow)
    (h : history) : Prop :=
  exists real : Z * Z,
    last_framebuffer_size gl h = Some real /\
    perspective_projection this =
      perspective glm (radians glm (field_of_view this))
        (F32.div (F32.of_int (fst real)) (F32.of_int (snd real)))
        F32.lit_0_1 F32.lit_100_0.

(** ** Sequences of operations on a constructed window *)

Inductive op : Type :=
| OpIsRunning
| OpSetBufferClearColor (color : Color)
| OpUpdateDimensions (width height : Z)
| OpUpdateFieldOfView (fov : GLfloat)
| OpPollForEvents
| OpPrepareRender
| OpRenderModel (model_instance : Z)
| OpFinishRender.

Definition run_op (glm : Glm) (gl : Backend) (o : op) : M GameWindow unit :=
  match o with
  | OpIsRunning => IsRunning gl ;; ret tt
  | OpSetBufferClearColor color => SetBufferClearColor color
  | OpUpdateDimensions width height => UpdateDimensions glm gl width height
  | OpUpdateFieldOfView fov => UpdateFieldOfView glm gl fov
  | OpPollForEvents => PollForEvents
  | OpPrepareRender => PrepareRender gl
  | OpRenderModel model_instance => RenderModel model_instance
  | OpFinishRender => FinishRender
  end.

Fixpoint run_ops (glm : Glm) (gl : Backend) (os : list op) : M GameWindow unit :=
  match os with
  | [] => ret tt
  | o :: rest => run_op glm gl o ;; run_ops glm gl rest
  end.

(** The field of view after a sequence of operations. *)
Definition fov_step (fov : GLfloat) (o : op) : GLfloat :=
  match o with
  | OpUpdateFieldOfView fov' => fov'
  | _ => fov
  end.

(** A backend on which nothing ever fails. *)
Definition always_succeeds (gl : Backend) : Prop :=
  (forall h width height title, glfwCreateWindow_ret gl h width height title <> 0) /\
  (forall h shader_type, glCreateShader_ret gl h shader_type <> 0) /\
  (forall h shader, glGetShaderiv_ret gl h shader GL_COMPILE_STATUS <> 0) /\
  (forall h, glCreateProgram_ret gl h <> 0) /\
  (forall h p, glGetProgramiv_ret gl h p GL_LINK_STATUS <> 0).

(** The same backend with another answer to [glfwCreateWindow], and with
    another answer to [glGetShaderiv]. *)
Definition with_glfwCreateWindow_ret (gl : Backend)
    (answer : history -> Z -> Z -> string -> Z) : Backend :=
  mkBackend (file_content gl) answer (glfwWindowShouldClose_ret gl)
    (glfwGetFramebufferSize_ret gl) (glCreateShader_ret gl) (glGetShaderiv_ret gl)
    (glGetShaderInfoLog_ret gl) (glCreateProgram_ret gl) (glGetProgramiv_ret gl)
    (glGetProgramInfoLog_ret gl) (glGetUniformLocation_ret gl)
    (Camera_GetViewTransform_ret gl).

Definition with_glGetShaderiv_ret (gl : Backend) (answer : history -> Z -> Z -> Z) : Backend :=
  mkBackend (file_content gl) (glfwCreateWindow_ret gl) (glfwWindowShouldClose_ret gl)
    (glfwGetFramebufferSize_ret gl) (glCreateShader_ret gl) answer
    (glGetShaderInfoLog_ret gl) (glCreateProgram_ret gl) (glGetProgramiv_ret gl)
    (glGetProgramInfoLog_ret gl) (glGetUniformLocation_ret gl)
    (Camera_GetViewTransform_ret gl).

(** No window can be created. *)
Definition demo_gl_no_window : Backend := with_glfwCreateWindow_ret demo_gl (fun _ _ _ _ => 0).

(** No shader compiles. *)
Definition demo_gl_compile_fails : Backend := with_glGetShaderiv_ret demo_gl (fun _ _ _ => 0).

(** * Properties *)

(** Unfold one layer of the computation and let the history settle into
    the shape [h ++ [c1; ...; cn]]. *)
Ltac run :=
  unfold bind, ret, throw, member, assign, emit, extcall; simpl.

Ltac settle := repeat rewrite <- app_assoc; simpl.

(** ** The literals are the binary32 values the compiler picks *)

Lemma lit_0_1_is_a_tenth : F32.div (F32.of_int 1) (F32.of_int 10) = F32.lit_0_1.
Proof. vm_compute. reflexivity. Qed.

Lemma lit_0_03_is_three_hundredths : F32.div (F32.of_int 3) (F32.of_int 100) = F32.lit_0_03.
Proof. vm_compute. reflexivity. Qed.

Lemma lit_integers :
  F32.of_int 0 = F32.lit_0_0 /\ F32.of_int 1 = F32.lit_1_0 /\
  F32.of_int 45 = F32.lit_45_0 /\ F32.of_int 100 = F32.lit_100_0.
Proof. vm_compute. repeat split. Qed.

(** ** Reading a history that is built by appending *)

Lemma current_viewport_app (h evs : history) :
  current_viewport (h ++ evs) = fold_left viewport_step evs (current_viewport h).
Proof. unfold current_viewport. apply fold_left_app. Qed.

Lemma requested_window_size_app (h evs : history) :
  requested_window_size (h ++ evs) = fold_left window_size_step evs (requested_window_size h).
Proof. unfold requested_window_size. apply fold_left_app. Qed.

Lemma programs_of_app (xs ys : list call) :
  programs_of (xs ++ ys) = programs_of xs ++ programs_of ys.
Proof.
  induction xs as [|c xs IH]; simpl; [reflexivity|].
  destruct (program_of c); simpl; rewrite IH; reflexivity.
Qed.

Lemma draws_of_app (xs ys : list call) :
  draws_of (xs ++ ys) = draws_of xs ++ draws_of ys.
Proof.
  induction xs as [|c xs IH]; simpl; [reflexivity|].
  destruct c; simpl; rewrite IH; reflexivity.
Qed.

Lemma programs_of_draws (p : Z) (models : list Z) :
  programs_of (map (fun m => ModelInstance_Draw m p) models) = map (fun _ => p) models.
Proof. induction models as [|m ms IH]; simpl; [reflexivity|]. rewrite IH. reflexivity. Qed.

Lemma draws_of_draws (p : Z) (models : list Z) :
  draws_of (map (fun m => ModelInstance_Draw m p) models) = map (fun m => (m, p)) models.
Proof. induction models as [|m ms IH]; simpl; [reflexivity|]. rewrite IH. reflexivity. Qed.

(** ** gfx::Material *)

Section MaterialProperties.

Variable gl : Backend.

(** What [RemoveTexture] computes, in closed form. *)
Lemma RemoveTexture_run (m : Material) (id : Z) (hst : history) :
  RemoveTexture id (mkConfig m hst) =
  (Returns tt,
   mkConfig (mkMaterial (shininess m) (ambient_coefficient m)
               (if diffuse_handle m =? id then 0 else diffuse_handle m)
               (if specular_handle m =? id then 0 else specular_handle m)) hst).
Proof.
  destruct m as [sh am d s]. unfold RemoveTexture. run.
  destruct (d =? id); simpl; destruct (s =? id); reflexivity.
Qed.

(** C3.  [RemoveTexture(id)] leaves both handles alone when [id] matches
    neither; clears exactly the matching one to 0 when [id] matches exactly
    one; and a second call with the same [id] changes nothing.  It makes no
    call into the backend and leaves the two scalars alone. *)
Theorem RemoveTexture_clears_matching_handle :
  forall (m : Material) (id : Z) (hst : history),
  exists m' : Material,
    RemoveTexture id (mkConfig m hst) = (Returns tt, mkConfig m' hst) /\
    shininess m' = shininess m /\
    ambient_coefficient m' = ambient_coefficient m /\
    (diffuse_handle m <> id -> specular_handle m <> id ->
       diffuse_handle m' = diffuse_handle m /\ specular_handle m' = specular_handle m) /\
    (diffuse_handle m = id -> specular_handle m <> id ->
       diffuse_handle m' = 0 /\ specular_handle m' = specular_handle m) /\
    (diffuse_handle m <> id -> specular_handle m = id ->
       diffuse_handle m' = diffuse_handle m /\ specular_handle m' = 0) /\
    RemoveTexture id (mkConfig m' hst) = (Returns tt, mkConfig m' hst).
Proof.
  intros m id hst. eexists. split; [apply RemoveTexture_run|].
  rewrite RemoveTexture_run. destruct m as [sh am d s]. simpl.
  destruct (Z.eqb_spec d id) as [Hd|Hd]; destruct (Z.eqb_spec s id) as [Hs|Hs];
    repeat split; intros; try congruence; try contradiction;
    repeat match goal with
           | |- context [?x =? ?y] => destruct (Z.eqb_spec x y); try congruence
           end.
Qed.

(** C4.  With no diffuse texture and a specular texture, [UseMaterial]
    makes exactly these calls: the two scalars, diffuse_enabled = 0 with no
    texture call after it, specular_enabled = 1, then texture unit 1 is
    selected, the specular handle is bound and the specular sampler is set
    to 1.  Whatever unit was active before, the only bind is the specular
    handle on [GL_TEXTURE1], and unit 0 is never selected. *)
Theorem UseMaterial_specular_only :
  forall (m : Material) (program : Z) (hst : history),
    diffuse_handle m = 0 ->
    specular_handle m <> 0 ->
    let ambient_location := glGetUniformLocation_ret gl hst program "ambient_coefficient" in
    let h1 := hst ++ [glGetUniformLocation program "ambient_coefficient";
                      glUniform1f ambient_location (ambient_coefficient m)] in
    let shininess_location := glGetUniformLocation_ret gl h1 program "shininess" in
    let h2 := h1 ++ [glGetUniformLocation program "shininess";
                     glUniform1f shininess_location (shininess m)] in
    let diffuse_enabled_location := glGetUniformLocation_ret gl h2 program "diffuse_enabled" in
    let h3 := h2 ++ [glGetUniformLocation program "diffuse_enabled";
                     glUniform1i diffuse_enabled_location 0] in
    let specular_enabled_location :=
      glGetUniformLocation_ret gl h3 program "specular_enabled" in
    let h4 := h3 ++ [glGetUniformLocation program "specular_enabled";
                     cout ("specular_enabled 1" ++ endl)%string;
                     glUniform1i specular_enabled_location 1;
                     glActiveTexture GL_TEXTURE1;
                     glBindTexture GL_TEXTURE_2D (specular_handle m)] in
    let specular_texture_location :=
      glGetUniformLocation_ret gl h4 program "specular_texture" in
    exists evs : list call,
      UseMaterial gl program (mkConfig m hst) = (Returns tt, mkConfig m (hst ++ evs)) /\
      hst ++ evs = h4 ++ [glGetUniformLocation program "specular_texture";
                          glUniform1i specular_texture_location 1] /\
      uniform1i_writes evs = [(diffuse_enabled_location, 0);
                              (specular_enabled_location, 1);
                              (specular_texture_location, 1)] /\
      (forall active : Z,
         texture_binds active evs = [(GL_TEXTURE1, GL_TEXTURE_2D, specular_handle m)]) /\
      ~ In (glActiveTexture GL_TEXTURE0) evs /\
      GL_TEXTURE1 = GL_TEXTURE0 + 1.
Proof.
  intros [sh am d s] program hst Hd Hs. simpl in Hd, Hs. subst d. simpl.
  unfold UseMaterial. run.
  destruct (Z.eqb_spec s 0) as [E|_]; [contradiction|]. simpl.
  settle.
  eexists. split; [reflexivity|].
  split; [reflexivity|].
  split; [reflexivity|].
  split; [intros; reflexivity|].
  split; [|reflexivity].
  simpl. intros H.
  repeat (destruct H as [H|H]; [discriminate H|]). exact H.
Qed.

End MaterialProperties.

(** ** gfx::GameWindow: projection and frame protocol *)

Section GameWindowProperties.

Variable glm : Glm.
Variable gl : Backend.

(** The matrix [UpdatePerspectiveProjection] stores for a field of view and
    a framebuffer size. *)
Lemma UpdatePerspectiveProjection_run (width height : Z) (this : GameWindow) (hst : history) :
  UpdatePerspectiveProjection glm width height (mkConfig this hst) =
  (Returns tt,
   mkConfig (set_perspective_projection
               (perspective glm (radians glm (field_of_view this))
                  (F32.div (F32.of_int width) (F32.of_int height))
                  F32.lit_0_1 F32.lit_100_0) this) hst).
Proof. reflexivity. Qed.

(** What [UpdateDimensions] does, in closed form. *)
Lemma UpdateDimensions_run (w h : Z) (this : GameWindow) (hst : history) :
  let real := glfwGetFramebufferSize_ret gl
                (hst ++ [glfwSetWindowSize (window this) w h]) (window this) in
  UpdateDimensions glm gl w h (mkConfig this hst) =
  (Returns tt,
   mkConfig (set_perspective_projection
               (perspective glm (radians glm (field_of_view this))
                  (F32.div (F32.of_int (fst real)) (F32.of_int (snd real)))
                  F32.lit_0_1 F32.lit_100_0) this)
     (hst ++ [glfwSetWindowSize (window this) w h;
              glfwGetFramebufferSize (window this);
              glViewport 0 0 (fst real) (snd real)])).
Proof.
  simpl. unfold UpdateDimensions, UpdatePerspectiveProjection. run. settle. reflexivity.
Qed.

(** C2.  After [UpdateDimensions(w, h)] the projection is
    [perspective(radians(field_of_view), real_width / real_height, 0.1, 100)]
    where the real size is what [glfwGetFramebufferSize] answers after the
    resize request; [w] and [h] reach the projection only through that
    answer.  The viewport is reset to the real size; the other members are
    untouched. *)
Theorem UpdateDimensions_projection :
  forall (w h : Z) (this : GameWindow) (hst : history),
    let real := glfwGetFramebufferSize_ret gl
                  (hst ++ [glfwSetWindowSize (window this) w h]) (window this) in
    let real_width := fst real in
    let real_height := snd real in
    exists this' : GameWindow,
      UpdateDimensions glm gl w h (mkConfig this hst) =
      (Returns tt,
       mkConfig this' (hst ++ [glfwSetWindowSize (window this) w h;
                               glfwGetFramebufferSize (window this);
                               glViewport 0 0 real_width real_height])) /\
      perspective_projection this' =
        perspective glm (radians glm (field_of_view this))
          (F32.div (F32.of_int real_width) (F32.of_int real_height))
          F32.lit_0_1 F32.lit_100_0 /\
      field_of_view this' = field_of_view this /\
      program this' = program this /\
      window this' = window this /\
      camera this' = camera this.
Proof.
  intros w h this hst. simpl.
  eexists. split; [apply UpdateDimensions_run|]. simpl. repeat split.
Qed.

(** C7.  [UpdateFieldOfView(fov2)] stores [fov2], asks the backend for the
    framebuffer size and recomputes the projection from the two.  That
    query is the only call it makes: the viewport and the requested window
    size read off the history are what they were, and right after an
    [UpdateDimensions(w, h)] they are the ones that call established. *)
Theorem UpdateFieldOfView_projection :
  forall (fov2 : GLfloat) (this : GameWindow) (hst : history),
    let real := glfwGetFramebufferSize_ret gl hst (window this) in
    exists this' : GameWindow,
      UpdateFieldOfView glm gl fov2 (mkConfig this hst) =
      (Returns tt, mkConfig this' (hst ++ [glfwGetFramebufferSize (window this)])) /\
      field_of_view this' = fov2 /\
      perspective_projection this' =
        perspective glm (radians glm fov2)
          (F32.div (F32.of_int (fst real)) (F32.of_int (snd real)))
          F32.lit_0_1 F32.lit_100_0 /\
      program this' = program this /\
      window this' = window this /\
      camera this' = camera this /\
      current_viewport (hst ++ [glfwGetFramebufferSize (window this)]) =
        current_viewport hst /\
      requested_window_size (hst ++ [glfwGetFramebufferSize (window this)]) =
        requested_window_size hst /\
      (forall (w h : Z) (before : GameWindow) (earlier : history),
         UpdateDimensions glm gl w h (mkConfig before earlier) =
           (Returns tt, mkConfig this hst) ->
         let sized := glfwGetFramebufferSize_ret gl
                        (earlier ++ [glfwSetWindowSize (window before) w h])
                        (window before) in
         current_viewport (hst ++ [glfwGetFramebufferSize (window this)]) =
           Some (0, 0, fst sized, snd sized) /\
         requested_window_size (hst ++ [glfwGetFramebufferSize (window this)]) =
           Some (w, h)).
Proof.
  intros fov2 this hst. simpl.
  unfold UpdateFieldOfView, UpdatePerspectiveProjection. run.
  eexists. split; [reflexivity|]. simpl.
  rewrite current_viewport_app, requested_window_size_app. simpl.
  repeat split.
  - rewrite UpdateDimensions_run in H. inversion H; subst.
    rewrite current_viewport_app. reflexivity.
  - rewrite UpdateDimensions_run in H. inversion H; subst.
    rewrite requested_window_size_app. reflexivity.
Qed.

(** C8.  [PrepareRender] makes these calls, in this order: [glUseProgram]
    on the stored program; [glClear] with both the colour and the depth
    bit; the lookup of [view], the camera's view transform and its upload
    to that location; the lookup of [projection] and the upload of the
    stored projection matrix to that location.  The object is unchanged. *)
Theorem PrepareRender_calls :
  forall (this : GameWindow) (hst : history),
    let p := program this in
    let mask := Z.lor GL_COLOR_BUFFER_BIT GL_DEPTH_BUFFER_BIT in
    let h1 := hst ++ [glUseProgram p; glClear mask] in
    let view_location := glGetUniformLocation_ret gl h1 p "view" in
    let h2 := h1 ++ [glGetUniformLocation p "view"] in
    let view := Camera_GetViewTransform_ret gl h2 (camera this) in
    let h3 := h2 ++ [Camera_GetViewTransform (camera this);
                     glUniformMatrix4fv view_location 1 GL_FALSE view] in
    let projection_location := glGetUniformLocation_ret gl h3 p "projection" in
    PrepareRender gl (mkConfig this hst) =
    (Returns tt,
     mkConfig this
       (h3 ++ [glGetUniformLocation p "projection";
               glUniformMatrix4fv projection_location 1 GL_FALSE
                 (perspective_projection this)])) /\
    Z.land mask GL_COLOR_BUFFER_BIT = GL_COLOR_BUFFER_BIT /\
    Z.land mask GL_DEPTH_BUFFER_BIT = GL_DEPTH_BUFFER_BIT.
Proof.
  intros this hst. simpl. unfold PrepareRender. run. settle.
  repeat split.
Qed.

(** [RenderModel] for each model instance in turn: one draw each, all with
    the stored program. *)
Lemma render_all_run (models : list Z) (this : GameWindow) (hst : history) :
  render_all models (mkConfig this hst) =
  (Returns tt,
   mkConfig this (hst ++ map (fun m => ModelInstance_Draw m (program this)) models)).
Proof.
  revert hst. induction models as [|m ms IH]; intros hst; simpl.
  - unfold ret. rewrite app_nil_r. reflexivity.
  - unfold RenderModel. run. rewrite IH. settle. reflexivity.
Qed.

End GameWindowProperties.

(** ** gfx::GameWindow: shaders, program and construction *)

Lemma bind_returns {S A B : Type} (m : M S A) (k : A -> M S B) (c c' : config S) (a : A) :
  m c = (Returns a, c') -> bind m k c = k a c'.
Proof. intros H. unfold bind. rewrite H. reflexivity. Qed.

Lemma bind_throws {S A B : Type} (m : M S A) (k : A -> M S B) (c c' : config S) (e : exn) :
  m c = (Throws e, c') -> bind m k c = (Throws e, c').
Proof. intros H. unfold bind. rewrite H. reflexivity. Qed.

Lemma size_zero_iff_empty (s : string) : size s = 0 <-> s = EmptyString.
Proof.
  unfold size. destruct s; simpl; split; intros H; try reflexivity; discriminate.
Qed.

Section ConstructionProperties.

Variable glm : Glm.
Variable gl : Backend.

(** A shader whose file reads as empty: the null handle, and not a single
    call. *)
Lemma CompileShader_empty (path : string) :
  read_all (file_content gl) path = Returns EmptyString ->
  forall (shader_type : Z) (c : config GameWindow),
    CompileShader gl path shader_type c = (Returns 0, c).
Proof.
  intros H shader_type c. unfold CompileShader, bind, lift. rewrite H. reflexivity.
Qed.

(** A shader whose file opens and cannot be read: the exception of the
    stream leaves [CompileShader], and not a single call is made. *)
Lemma CompileShader_read_error (path : string) :
  file_content gl path = ReadError ->
  forall (shader_type : Z) (c : config GameWindow),
    CompileShader gl path shader_type c = (Throws ios_base_failure, c).
Proof.
  intros H shader_type c. unfold CompileShader, bind, lift, read_all. rewrite H.
  reflexivity.
Qed.

(** A read that does not fail returns what the stream delivered. *)
Lemma read_all_returns (path : string) :
  file_content gl path <> ReadError ->
  exists content : string, read_all (file_content gl) path = Returns content.
Proof.
  intros H. unfold read_all. destruct (file_content gl path); eauto. contradiction.
Qed.

(** When the read does not fail, [CompileShader] returns, and leaves the
    object alone.  It makes shader-stage calls only. *)
Lemma CompileShader_returns (path : string) (shader_type : Z) (c : config GameWindow) :
  file_content gl path <> ReadError ->
  exists (shader : Z) (evs : list call),
    CompileShader gl path shader_type c =
      (Returns shader, mkConfig (self c) (hist c ++ evs)) /\
    forallb shader_stage_call evs = true.
Proof.
  intros Hread. destruct (read_all_returns path Hread) as (content & Hcontent).
  unfold CompileShader, bind at 1, lift. rewrite Hcontent.
  destruct (size content =? 0).
  - exists 0, []. unfold ret. rewrite app_nil_r. destruct c; split; reflexivity.
  - run.
    match goal with
    | |- context [if ?b then _ else _] => destruct b
    end; simpl; eexists; eexists; (split; [settle; reflexivity|reflexivity]).
Qed.

Lemma read_error_dec (r : stream) : {r = ReadError} + {r <> ReadError}.
Proof. destruct r; [right; discriminate|right; discriminate|left; reflexivity]. Qed.

(** [LinkProgram] returns, with shader-stage calls only, or the read of one
    of its two files fails and the exception of the stream leaves it. *)
Lemma LinkProgram_outcome (vertex_path fragment_path : string) (c : config GameWindow) :
  (exists (linked : Z) (evs : list call),
     LinkProgram gl vertex_path fragment_path c =
       (Returns linked, mkConfig (self c) (hist c ++ evs)) /\
     forallb shader_stage_call evs = true /\
     file_content gl vertex_path <> ReadError /\
     file_content gl fragment_path <> ReadError) \/
  (exists evs : list call,
     LinkProgram gl vertex_path fragment_path c =
       (Throws ios_base_failure, mkConfig (self c) (hist c ++ evs)) /\
     forallb shader_stage_call evs = true /\
     (file_content gl vertex_path = ReadError \/
      file_content gl fragment_path = ReadError)).
Proof.
  unfold LinkProgram.
  destruct (read_error_dec (file_content gl vertex_path)) as [Ev|Hv].
  { right. exists [].
    rewrite (bind_throws _ _ _ _ _
               (CompileShader_read_error vertex_path Ev GL_VERTEX_SHADER c)).
    rewrite app_nil_r. destruct c; auto. }
  destruct (CompileShader_returns vertex_path GL_VERTEX_SHADER c Hv)
    as (v & e1 & H1 & Hs1).
  rewrite (bind_returns _ _ _ _ _ H1).
  destruct (read_error_dec (file_content gl fragment_path)) as [Ef|Hf].
  { right. exists e1.
    rewrite (bind_throws _ _ _ _ _
               (CompileShader_read_error fragment_path Ef GL_FRAGMENT_SHADER
                  (mkConfig (self c) (hist c ++ e1)))).
    auto. }
  destruct (CompileShader_returns fragment_path GL_FRAGMENT_SHADER
              (mkConfig (self c) (hist c ++ e1)) Hf) as (f & e2 & H2 & Hs2).
  rewrite (bind_returns _ _ _ _ _ H2). left. simpl in *.
  destruct ((v =? 0) || (f =? 0)).
  - exists 0, (e1 ++ e2). unfold ret. rewrite app_assoc, forallb_app, Hs1, Hs2. auto.
  - run.
    match goal with
    | |- context [if ?b then _ else _] => destruct b
    end; simpl;
    [| match goal with
       | |- context [if ?b then _ else _] => destruct b
       end; simpl ];
    eexists; eexists; (split; [settle; reflexivity|]);
    rewrite !forallb_app, Hs1, Hs2; auto.
Qed.

(** When neither read fails, [LinkProgram] returns. *)
Lemma LinkProgram_returns (vertex_path fragment_path : string) (c : config GameWindow) :
  file_content gl vertex_path <> ReadError ->
  file_content gl fragment_path <> ReadError ->
  exists (linked : Z) (evs : list call),
    LinkProgram gl vertex_path fragment_path c =
      (Returns linked, mkConfig (self c) (hist c ++ evs)).
Proof.
  intros Hv Hf.
  destruct (LinkProgram_outcome vertex_path fragment_path c)
    as [(p & evs & Hrun & _)|(evs & _ & _ & [E|E])]; [eauto|contradiction|contradiction].
Qed.

(** One shader file that reads as empty is enough for a null program,
    whichever of the two it is, when the read of the other does not fail. *)
Lemma LinkProgram_null_shader (vertex_path fragment_path : string) :
  file_content gl vertex_path <> ReadError ->
  file_content gl fragment_path <> ReadError ->
  read_all (file_content gl) vertex_path = Returns EmptyString \/
  read_all (file_content gl) fragment_path = Returns EmptyString ->
  forall c : config GameWindow,
  exists evs : list call,
    LinkProgram gl vertex_path fragment_path c =
      (Returns 0, mkConfig (self c) (hist c ++ evs)).
Proof.
  intros Hv Hf Hempty c.
  destruct (CompileShader_returns vertex_path GL_VERTEX_SHADER c Hv) as (v & e1 & H1 & _).
  destruct (CompileShader_returns fragment_path GL_FRAGMENT_SHADER
              (mkConfig (self c) (hist c ++ e1)) Hf) as (f & e2 & H2 & _).
  unfold LinkProgram.
  rewrite (bind_returns _ _ _ _ _ H1), (bind_returns _ _ _ _ _ H2).
  assert (Hz : (v =? 0) || (f =? 0) = true).
  { destruct Hempty as [He|He].
    - rewrite (CompileShader_empty _ He) in H1. inversion H1; subst. reflexivity.
    - rewrite (CompileShader_empty _ He) in H2. inversion H2; subst.
      apply orb_true_r. }
  rewrite Hz. exists (e1 ++ e2). unfold ret. rewrite app_assoc. reflexivity.
Qed.

(** [InitializeGameWindow] changes at most the window and the projection,
    and the only exception it throws is its own. *)
Lemma InitializeGameWindow_keeps_program (width height : Z) (color : Color)
    (c : config GameWindow) :
  exists (o : outcome unit) (c' : config GameWindow),
    InitializeGameWindow glm gl width height color c = (o, c') /\
    program (self c') = program (self c) /\
    (o = Returns tt \/ o = Throws GameWindowCannotBeInitializedException).
Proof.
  unfold InitializeGameWindow, SetBufferClearColor, UpdateDimensions,
    UpdatePerspectiveProjection. run.
  match goal with
  | |- context [if ?b then _ else _] => destruct b
  end; simpl; eexists; eexists; (split; [reflexivity|split; [reflexivity|auto]]).
Qed.

(** When [InitializeGameWindow] returns, the window is not null. *)
Lemma InitializeGameWindow_window (width height : Z) (color : Color)
    (c c' : config GameWindow) :
  InitializeGameWindow glm gl width height color c = (Returns tt, c') ->
  window (self c') <> 0.
Proof.
  unfold InitializeGameWindow, SetBufferClearColor, UpdateDimensions,
    UpdatePerspectiveProjection. run.
  match goal with
  | |- context [if ?x =? 0 then _ else _] => destruct (Z.eqb_spec x 0) as [E|E]
  end; simpl; intros H; inversion H; subst; simpl; exact E.
Qed.

(** The constructors' body returns with a window and a program that are
    not null, or throws its own exception, or lets the exception of a
    failed read through. *)
Lemma GameWindow_body_cases (width height : Z) (vertex_path fragment_path : string)
    (color : Color) (c : config GameWindow) :
  (exists c', GameWindow_body glm gl width height vertex_path fragment_path color c =
                (Returns tt, c') /\ program (self c') <> 0 /\ window (self c') <> 0) \/
  (exists c', GameWindow_body glm gl width height vertex_path fragment_path color c =
                (Throws GameWindowCannotBeInitializedException, c')) \/
  ((file_content gl vertex_path = ReadError \/ file_content gl fragment_path = ReadError) /\
   exists c', GameWindow_body glm gl width height vertex_path fragment_path color c =
                (Throws ios_base_failure, c')).
Proof.
  unfold GameWindow_body.
  destruct (InitializeGameWindow_keeps_program width height color c)
    as (o & c1 & Hinit & _ & [Ho|Ho]); subst o.
  - pose proof (InitializeGameWindow_window _ _ _ _ _ Hinit) as Hwin.
    rewrite (bind_returns _ _ _ _ _ Hinit).
    destruct (LinkProgram_outcome vertex_path fragment_path c1)
      as [(p & evs & Hlink & _)|(evs & Hlink & _ & Hread)].
    + rewrite (bind_returns _ _ _ _ _ Hlink). run.
      destruct (Z.eqb_spec p 0) as [Hp|Hp].
      * right. left. eexists. reflexivity.
      * left. eexists. split; [reflexivity|]. simpl. split; [exact Hp|exact Hwin].
    + right. right. split; [exact Hread|].
      rewrite (bind_throws _ _ _ _ _ Hlink). eexists. reflexivity.
  - right. left. rewrite (bind_throws _ _ _ _ _ Hinit). eexists. reflexivity.
Qed.

(** With a shader file that reads as empty, and no failing read, the body
    always throws its own exception. *)
Lemma GameWindow_body_null_shader (width height : Z) (vertex_path fragment_path : string)
    (color : Color) (c : config GameWindow) :
  file_content gl vertex_path <> ReadError ->
  file_content gl fragment_path <> ReadError ->
  read_all (file_content gl) vertex_path = Returns EmptyString \/
  read_all (file_content gl) fragment_path = Returns EmptyString ->
  exists c', GameWindow_body glm gl width height vertex_path fragment_path color c =
               (Throws GameWindowCannotBeInitializedException, c').
Proof.
  intros Hv Hf Hempty. unfold GameWindow_body.
  destruct (InitializeGameWindow_keeps_program width height color c)
    as (o & c1 & Hinit & _ & [Ho|Ho]); subst o.
  - rewrite (bind_returns _ _ _ _ _ Hinit).
    destruct (LinkProgram_null_shader vertex_path fragment_path Hv Hf Hempty c1)
      as (evs & Hlink).
    rewrite (bind_returns _ _ _ _ _ Hlink). run. eexists. reflexivity.
  - rewrite (bind_throws _ _ _ _ _ Hinit). eexists. reflexivity.
Qed.

Lemma construct_throws (init : GameWindow) (body : M GameWindow unit) (hst : history)
    (e : exn) :
  (exists c', body (mkConfig init hst) = (Throws e, c')) ->
  exists hst', construct init body hst = (Throws e, hst').
Proof.
  intros (c' & H). unfold construct. rewrite H. eexists. reflexivity.
Qed.

(** Both constructors throw their own exception when a shader file reads
    as empty and no read fails. *)
Lemma constructors_throw_on_null_shader (vertex_path fragment_path : string) :
  file_content gl vertex_path <> ReadError ->
  file_content gl fragment_path <> ReadError ->
  read_all (file_content gl) vertex_path = Returns EmptyString \/
  read_all (file_content gl) fragment_path = Returns EmptyString ->
  (forall (width height camera : Z) (fov : GLfloat) (color : Color) (hst : history),
     exists hst',
       GameWindow_new glm gl width height vertex_path fragment_path camera fov color hst =
         (Throws GameWindowCannotBeInitializedException, hst')) /\
  (forall (width height camera : Z) (hst : history),
     exists hst',
       GameWindow_new_default glm gl width height vertex_path fragment_path camera hst =
         (Throws GameWindowCannotBeInitializedException, hst')).
Proof.
  intros Hv Hf Hempty. split; intros;
    [unfold GameWindow_new | unfold GameWindow_new_default];
    apply construct_throws, GameWindow_body_null_shader; assumption.
Qed.

(** C1.  A shader file of 0 bytes: [CompileShader] answers the null handle
    without a single call; and whatever the other file holds, as long as
    reading it does not fail, [LinkProgram] answers the null program
    whichever of its two paths is the empty one and both constructors
    throw [GameWindowCannotBeInitializedException]. *)
Theorem empty_shader_file_fails_construction :
  forall (path other content : string),
    file_content gl path = Delivers content ->
    size content = 0 ->
    (forall (shader_type : Z) (c : config GameWindow),
       CompileShader gl path shader_type c = (Returns 0, c)) /\
    (file_content gl other <> ReadError ->
     (forall c : config GameWindow,
        (exists evs, LinkProgram gl path other c =
                       (Returns 0, mkConfig (self c) (hist c ++ evs))) /\
        (exists evs, LinkProgram gl other path c =
                       (Returns 0, mkConfig (self c) (hist c ++ evs)))) /\
     (forall (width height camera : Z) (fov : GLfloat) (color : Color) (hst : history),
        (exists hst',
           GameWindow_new glm gl width height path other camera fov color hst =
             (Throws GameWindowCannotBeInitializedException, hst')) /\
        (exists hst',
           GameWindow_new glm gl width height other path camera fov color hst =
             (Throws GameWindowCannotBeInitializedException, hst'))) /\
     (forall (width height camera : Z) (hst : history),
        (exists hst',
           GameWindow_new_default glm gl width height path other camera hst =
             (Throws GameWindowCannotBeInitializedException, hst')) /\
        (exists hst',
           GameWindow_new_default glm gl width height other path camera hst =
             (Throws GameWindowCannotBeInitializedException, hst')))).
Proof.
  intros path other content Hfile Hsize.
  assert (Hread : read_all (file_content gl) path = Returns EmptyString).
  { unfold read_all. rewrite Hfile. f_equal. apply size_zero_iff_empty, Hsize. }
  assert (Hpath : file_content gl path <> ReadError) by (rewrite Hfile; discriminate).
  split; [exact (CompileShader_empty path Hread)|].
  intros Hother.
  split.
  { intros c. split; apply LinkProgram_null_shader; auto. }
  destruct (constructors_throw_on_null_shader path other Hpath Hother (or_introl Hread))
    as [Hl1 Hl2].
  destruct (constructors_throw_on_null_shader other path Hother Hpath (or_intror Hread))
    as [Hr1 Hr2].
  split; intros; split; auto.
Qed.

(** C10, as the code has it.  A shader file that cannot be opened reads as
    the empty string, so everything goes as for a file of 0 bytes:
    [CompileShader] answers the null handle without a single call, shader
    compilation as a whole cannot tell the backend apart from one where
    the file exists and is empty, and, as long as reading the other file
    does not fail, both constructors throw
    [GameWindowCannotBeInitializedException].  A shader file that opens
    and cannot be read is another matter: [CompileShader] makes no call
    either, but it throws [std::ios_base::failure]. *)
Theorem unopenable_shader_file_fails_construction :
  forall (path other : string),
    file_content gl path = CannotOpen ->
    read_all (file_content gl) path = Returns EmptyString /\
    (forall (shader_type : Z) (c : config GameWindow),
       CompileShader gl path shader_type c = (Returns 0, c)) /\
    (forall (any : string) (shader_type : Z) (c : config GameWindow),
       CompileShader gl any shader_type c =
       CompileShader (with_file gl path (Delivers EmptyString)) any shader_type c) /\
    (file_content gl other <> ReadError ->
     (forall (width height camera : Z) (fov : GLfloat) (color : Color) (hst : history),
        (exists hst',
           GameWindow_new glm gl width height path other camera fov color hst =
             (Throws GameWindowCannotBeInitializedException, hst')) /\
        (exists hst',
           GameWindow_new glm gl width height other path camera fov color hst =
             (Throws GameWindowCannotBeInitializedException, hst'))) /\
     (forall (width height camera : Z) (hst : history),
        (exists hst',
           GameWindow_new_default glm gl width height path other camera hst =
             (Throws GameWindowCannotBeInitializedException, hst')) /\
        (exists hst',
           GameWindow_new_default glm gl width height other path camera hst =
             (Throws GameWindowCannotBeInitializedException, hst')))) /\
    (forall (unreadable : string) (shader_type : Z) (c : config GameWindow),
       file_content gl unreadable = ReadError ->
       CompileShader gl unreadable shader_type c = (Throws ios_base_failure, c)).
Proof.
  intros path other Hfile.
  assert (Hread : read_all (file_content gl) path = Returns EmptyString).
  { unfold read_all. rewrite Hfile. reflexivity. }
  assert (Hpath : file_content gl path <> ReadError) by (rewrite Hfile; discriminate).
  split; [exact Hread|].
  split; [exact (CompileShader_empty path Hread)|].
  split.
  { intros any shader_type c. unfold CompileShader.
    assert (Hsame : read_all (file_content (with_file gl path (Delivers EmptyString))) any =
                    read_all (file_content gl) any).
    { unfold read_all. simpl. destruct (String.eqb_spec any path) as [E|E].
      - subst any. rewrite Hfile. reflexivity.
      - reflexivity. }
    rewrite Hsame. reflexivity. }
  split.
  { intros Hother.
    destruct (constructors_throw_on_null_shader path other Hpath Hother (or_introl Hread))
      as [Hl1 Hl2].
    destruct (constructors_throw_on_null_shader other path Hother Hpath (or_intror Hread))
      as [Hr1 Hr2].
    split; intros; split; auto. }
  intros unreadable shader_type c Hbad. apply CompileShader_read_error, Hbad.
Qed.

(** The outcomes of the constructors. *)
Lemma construction_is_all_or_nothing_aux :
  forall (width height : Z) (vertex_path fragment_path : string) (camera : Z)
         (fov : GLfloat) (color : Color) (hst : history),
    ((exists this hst',
        GameWindow_new glm gl width height vertex_path fragment_path camera fov color hst =
          (Returns this, hst') /\ program this <> 0 /\ window this <> 0) \/
     (exists hst',
        GameWindow_new glm gl width height vertex_path fragment_path camera fov color hst =
          (Throws GameWindowCannotBeInitializedException, hst')) \/
     ((file_content gl vertex_path = ReadError \/
       file_content gl fragment_path = ReadError) /\
      exists hst',
        GameWindow_new glm gl width height vertex_path fragment_path camera fov color hst =
          (Throws ios_base_failure, hst'))) /\
    ((exists this hst',
        GameWindow_new_default glm gl width height vertex_path fragment_path camera hst =
          (Returns this, hst') /\ program this <> 0 /\ window this <> 0) \/
     (exists hst',
        GameWindow_new_default glm gl width height vertex_path fragment_path camera hst =
          (Throws GameWindowCannotBeInitializedException, hst')) \/
     ((file_content gl vertex_path = ReadError \/
       file_content gl fragment_path = ReadError) /\
      exists hst',
        GameWindow_new_default glm gl width height vertex_path fragment_path camera hst =
          (Throws ios_base_failure, hst'))).
Proof.
  intros. unfold GameWindow_new, GameWindow_new_default, construct. split.
  - match goal with
    | |- context [GameWindow_body ?g ?b ?w ?h ?v ?f ?col ?c] =>
        destruct (GameWindow_body_cases w h v f col c)
          as [(c' & Hrun & Hp & Hw)|[(c' & Hrun)|(Hread & c' & Hrun)]]
    end; rewrite Hrun; [left|right; left|right; right]; eauto.
  - match goal with
    | |- context [GameWindow_body ?g ?b ?w ?h ?v ?f ?col ?c] =>
        destruct (GameWindow_body_cases w h v f col c)
          as [(c' & Hrun & Hp & Hw)|[(c' & Hrun)|(Hread & c' & Hrun)]]
    end; rewrite Hrun; [left|right; left|right; right]; eauto.
Qed.

(** A constructor that returns leaves a program that is not null. *)
Lemma constructed_program_not_null (width height : Z) (vertex_path fragment_path : string)
    (camera : Z) (fov : GLfloat) (color : Color) (before hst : history)
    (this : GameWindow) :
  GameWindow_new glm gl width height vertex_path fragment_path camera fov color before =
    (Returns this, hst) \/
  GameWindow_new_default glm gl width height vertex_path fragment_path camera before =
    (Returns this, hst) ->
  program this <> 0.
Proof.
  intros Hnew.
  destruct (construction_is_all_or_nothing_aux width height vertex_path fragment_path
              camera fov color before) as [Ha Hb].
  destruct Hnew as [Hnew|Hnew].
  - destruct Ha as [(t & h' & Hrun & Hprog & _)|[(h' & Hrun)|(_ & h' & Hrun)]];
      rewrite Hrun in Hnew; inversion Hnew; subst; exact Hprog.
  - destruct Hb as [(t & h' & Hrun & Hprog & _)|[(h' & Hrun)|(_ & h' & Hrun)]];
      rewrite Hrun in Hnew; inversion Hnew; subst; exact Hprog.
Qed.

(** C6, as the code has it.  Whatever the arguments and whatever the
    backend does, no constructor returns an object whose program (or
    window) is null: each constructor returns an object with both set, or
    throws [GameWindowCannotBeInitializedException], or, only when a
    shader file opens and cannot be read, throws [std::ios_base::failure];
    a constructor that throws returns no object.  When neither read fails
    the first two outcomes are the only ones. *)
Theorem construction_is_all_or_nothing :
  forall (width height : Z) (vertex_path fragment_path : string) (camera : Z)
         (fov : GLfloat) (color : Color) (hst : history),
    (((exists this hst',
         GameWindow_new glm gl width height vertex_path fragment_path camera fov color hst =
           (Returns this, hst') /\ program this <> 0 /\ window this <> 0) \/
      (exists hst',
         GameWindow_new glm gl width height vertex_path fragment_path camera fov color hst =
           (Throws GameWindowCannotBeInitializedException, hst')) \/
      ((file_content gl vertex_path = ReadError \/
        file_content gl fragment_path = ReadError) /\
       exists hst',
         GameWindow_new glm gl width height vertex_path fragment_path camera fov color hst =
           (Throws ios_base_failure, hst'))) /\
     ((exists this hst',
         GameWindow_new_default glm gl width height vertex_path fragment_path camera hst =
           (Returns this, hst') /\ program this <> 0 /\ window this <> 0) \/
      (exists hst',
         GameWindow_new_default glm gl width height vertex_path fragment_path camera hst =
           (Throws GameWindowCannotBeInitializedException, hst')) \/
      ((file_content gl vertex_path = ReadError \/
        file_content gl fragment_path = ReadError) /\
       exists hst',
         GameWindow_new_default glm gl width height vertex_path fragment_path camera hst =
           (Throws ios_base_failure, hst')))) /\
    (file_content gl vertex_path <> ReadError ->
     file_content gl fragment_path <> ReadError ->
     ((exists this hst',
         GameWindow_new glm gl width height vertex_path fragment_path camera fov color hst =
           (Returns this, hst') /\ program this <> 0 /\ window this <> 0) \/
      (exists hst',
         GameWindow_new glm gl width height vertex_path fragment_path camera fov color hst =
           (Throws GameWindowCannotBeInitializedException, hst'))) /\
     ((exists this hst',
         GameWindow_new_default glm gl width height vertex_path fragment_path camera hst =
           (Returns this, hst') /\ program this <> 0 /\ window this <> 0) \/
      (exists hst',
         GameWindow_new_default glm gl width height vertex_path fragment_path camera hst =
           (Throws GameWindowCannotBeInitializedException, hst')))).
Proof.
  intros width height vertex_path fragment_path camera fov color hst.
  pose proof (construction_is_all_or_nothing_aux width height vertex_path fragment_path
                camera fov color hst) as [Ha Hb].
  split; [split; assumption|].
  intros Hv Hf. split.
  - destruct Ha as [H|[H|([E|E] & _)]]; auto; contradiction.
  - destruct Hb as [H|[H|([E|E] & _)]]; auto; contradiction.
Qed.

(** The calls of [PrepareRender], and the programs they name. *)
Lemma PrepareRender_run (this : GameWindow) (hst : history) :
  exists prepare : list call,
    PrepareRender gl (mkConfig this hst) = (Returns tt, mkConfig this (hst ++ prepare)) /\
    In (glUseProgram (program this)) prepare /\
    programs_of prepare = [program this; program this; program this] /\
    draws_of prepare = [].
Proof.
  unfold PrepareRender. run. settle. destruct this; simpl.
  eexists. split; [reflexivity|]. simpl. auto.
Qed.

(** C5.  When neither read fails, [LinkProgram] compiles the two shaders.
    If either handle is null
    it answers 0 there and then, with no further call.  Otherwise it makes
    [glCreateProgram], two [glAttachShader], [glLinkProgram], and the two
    [glDeleteShader] in that order, and only then asks for the link status:
    on failure it reports the log and answers 0, on success it answers the
    handle [glCreateProgram] gave. *)
Theorem LinkProgram_null_or_linked :
  forall (vertex_path fragment_path : string) (c : config GameWindow),
  file_content gl vertex_path <> ReadError ->
  file_content gl fragment_path <> ReadError ->
  exists (vertex_shader frag_shader : Z) (c1 c2 : config GameWindow),
    CompileShader gl vertex_path GL_VERTEX_SHADER c = (Returns vertex_shader, c1) /\
    CompileShader gl fragment_path GL_FRAGMENT_SHADER c1 = (Returns frag_shader, c2) /\
    (vertex_shader = 0 \/ frag_shader = 0 ->
       LinkProgram gl vertex_path fragment_path c = (Returns 0, c2)) /\
    (vertex_shader <> 0 -> frag_shader <> 0 ->
       let linked_program := glCreateProgram_ret gl (hist c2) in
       let linked := hist c2 ++ [glCreateProgram;
                                 glAttachShader linked_program vertex_shader;
                                 glAttachShader linked_program frag_shader;
                                 glLinkProgram linked_program;
                                 glDeleteShader vertex_shader;
                                 glDeleteShader frag_shader] in
       let success := glGetProgramiv_ret gl linked linked_program GL_LINK_STATUS in
       let checked := linked ++ [glGetProgramiv linked_program GL_LINK_STATUS] in
       let info_log := info_log_512 (glGetProgramInfoLog_ret gl checked linked_program) in
       exists tail : list call,
         LinkProgram gl vertex_path fragment_path c =
           (Returns (if success =? 0 then 0 else linked_program),
            mkConfig (self c2) (checked ++ tail)) /\
         (success = 0 ->
            tail = [glGetProgramInfoLog linked_program 512;
                    cout ("Failed to link shader program:" ++ endl
                            ++ info_log ++ endl)%string]) /\
         (success <> 0 -> linked_program <> 0 -> tail = []) /\
         (success <> 0 -> linked_program = 0 ->
            tail = [cout ("Failed to create shader program." ++ endl)%string;
                    glfwTerminate])).
Proof.
  intros vertex_path fragment_path c Hvread Hfread.
  destruct (CompileShader_returns vertex_path GL_VERTEX_SHADER c Hvread)
    as (v & e1 & H1 & _).
  destruct (CompileShader_returns fragment_path GL_FRAGMENT_SHADER
              (mkConfig (self c) (hist c ++ e1)) Hfread) as (f & e2 & H2 & _).
  exists v, f, (mkConfig (self c) (hist c ++ e1)),
    (mkConfig (self c) ((hist c ++ e1) ++ e2)).
  split; [exact H1|]. split; [exact H2|].
  unfold LinkProgram.
  rewrite (bind_returns _ _ _ _ _ H1), (bind_returns _ _ _ _ _ H2).
  split.
  - intros [Hv|Hf]; subst; simpl; [|rewrite orb_true_r]; reflexivity.
  - intros Hv Hf. simpl.
    apply Z.eqb_neq in Hv, Hf. rewrite Hv, Hf. simpl.
    run. settle.
    match goal with
    | |- context [if ?x =? 0 then _ else _] => destruct (Z.eqb_spec x 0) as [Es|Es]
    end; simpl.
    + eexists. split; [settle; reflexivity|].
      repeat split; intros; congruence.
    + match goal with
      | |- context [if ?x =? 0 then _ else _] => destruct (Z.eqb_spec x 0) as [Ep|Ep]
      end; simpl.
      * rewrite Ep. eexists. split; [settle; reflexivity|].
        repeat split; intros; congruence.
      * eexists. split; [settle; reflexivity|].
        repeat split; intros; congruence.
Qed.

(** C9.  Take an object either constructor returned and run one frame on
    it: [PrepareRender], [RenderModel] on each of any list of model
    instances, [FinishRender].  The frame returns, the object is the same
    at the end, every call of the frame that names a program names the
    stored one (the one [glUseProgram] activates and the uniform lookups
    use), and each model instance is drawn once, in order, with it. *)
Theorem frame_uses_the_stored_program :
  forall (width height : Z) (vertex_path fragment_path : string) (camera : Z)
         (fov : GLfloat) (color : Color) (before hst : history)
         (this : GameWindow) (models : list Z),
    GameWindow_new glm gl width height vertex_path fragment_path camera fov color before =
      (Returns this, hst) \/
    GameWindow_new_default glm gl width height vertex_path fragment_path camera before =
      (Returns this, hst) ->
    exists prepare : list call,
      PrepareRender gl (mkConfig this hst) = (Returns tt, mkConfig this (hst ++ prepare)) /\
      frame gl models (mkConfig this hst) =
        (Returns tt,
         mkConfig this
           (hst ++ prepare
                ++ map (fun m => ModelInstance_Draw m (program this)) models
                ++ [glfwSwapBuffers (window this)])) /\
      In (glUseProgram (program this)) prepare /\
      programs_of prepare = [program this; program this; program this] /\
      draws_of (prepare ++ map (fun m => ModelInstance_Draw m (program this)) models
                        ++ [glfwSwapBuffers (window this)]) =
        map (fun m => (m, program this)) models /\
      Forall (fun p => p = program this)
        (programs_of (prepare ++ map (fun m => ModelInstance_Draw m (program this)) models
                              ++ [glfwSwapBuffers (window this)])) /\
      program this <> 0.
Proof.
  intros width height vertex_path fragment_path camera fov color before hst this models Hnew.
  pose proof (constructed_program_not_null _ _ _ _ _ _ _ _ _ _ Hnew) as Hp.
  destruct (PrepareRender_run this hst) as (prepare & Hprep & Huse & Hprogs & Hdraws).
  exists prepare.
  split; [exact Hprep|].
  split.
  { unfold frame. rewrite (bind_returns _ _ _ _ _ Hprep).
    rewrite (bind_returns _ _ _ _ _ (render_all_run models this (hst ++ prepare))).
    unfold FinishRender. run. settle. reflexivity. }
  split; [exact Huse|]. split; [exact Hprogs|].
  split.
  { rewrite !draws_of_app, Hdraws, draws_of_draws. simpl. apply app_nil_r. }
  split; [|exact Hp].
  rewrite !programs_of_app, Hprogs, programs_of_draws. simpl.
  repeat constructor.
  rewrite app_nil_r. apply Forall_forall. intros x Hx.
  apply in_map_iff in Hx. destruct Hx as (m & Hm & _). symmetry. exact Hm.
Qed.

End ConstructionProperties.


(** * The theorems at work on the concrete backends *)

(** The framebuffer the backend reports need not have the requested
    proportions: a 4000 by 1000 request on the 1920-wide display yields the
    aspect ratio 1920/1000, not 4000/1000. *)
Lemma UpdateDimensions_uses_the_real_size :
  let after := self (snd (UpdateDimensions demo_glm demo_gl 4000 1000
                            (mkConfig demo_window []))) in
  col1 (perspective_projection after) =
    demo_row (F32.div (F32.of_int 1920) (F32.of_int 1000)) /\
  F32.div (F32.of_int 1920) (F32.of_int 1000) <>
    F32.div (F32.of_int 4000) (F32.of_int 1000).
Proof. split; [vm_compute; reflexivity|]. vm_compute. discriminate. Qed.

Lemma empty_shader_file_fails_construction_witness :
  file_content demo_gl "shaders/empty.glsl" = Delivers EmptyString /\
  size EmptyString = 0 /\
  file_content demo_gl "shaders/basic.vert" <> ReadError /\
  (exists hst',
     GameWindow_new_default demo_glm demo_gl 800 600
       "shaders/basic.vert" "shaders/empty.glsl" 7 [] =
       (Throws GameWindowCannotBeInitializedException, hst')) /\
  (exists hst',
     GameWindow_new_default demo_glm demo_gl 800 600
       "shaders/empty.glsl" "shaders/basic.vert" 7 [] =
       (Throws GameWindowCannotBeInitializedException, hst')).
Proof.
  split; [reflexivity|]. split; [reflexivity|].
  split; [vm_compute; discriminate|].
  destruct (empty_shader_file_fails_construction demo_glm demo_gl
              "shaders/empty.glsl" "shaders/basic.vert" EmptyString eq_refl eq_refl)
    as (_ & Hrest).
  destruct (Hrest ltac:(vm_compute; discriminate)) as (_ & _ & Hdefault).
  split.
  - exact (proj2 (Hdefault 800 600 7 [])).
  - exact (proj1 (Hdefault 800 600 7 [])).
Defined.

Lemma unopenable_shader_file_fails_construction_witness :
  file_content demo_gl "shaders/missing.frag" = CannotOpen /\
  file_content demo_gl "shaders/basic.vert" <> ReadError /\
  file_content demo_gl "shaders" = ReadError /\
  CompileShader demo_gl "shaders/missing.frag" GL_FRAGMENT_SHADER (mkConfig demo_window []) =
    (Returns 0, mkConfig demo_window []) /\
  (exists hst',
     GameWindow_new_default demo_glm demo_gl 800 600
       "shaders/basic.vert" "shaders/missing.frag" 7 [] =
       (Throws GameWindowCannotBeInitializedException, hst')) /\
  CompileShader demo_gl "shaders" GL_VERTEX_SHADER (mkConfig demo_window []) =
    (Throws ios_base_failure, mkConfig demo_window []).
Proof.
  split; [reflexivity|]. split; [vm_compute; discriminate|]. split; [reflexivity|].
  destruct (unopenable_shader_file_fails_construction demo_glm demo_gl
              "shaders/missing.frag" "shaders/basic.vert" eq_refl)
    as (_ & Hcompile & _ & Hctor & Hbad).
  destruct (Hctor ltac:(vm_compute; discriminate)) as (_ & Hdefault).
  split; [apply Hcompile|].
  split; [exact (proj2 (Hdefault 800 600 7 []))|].
  apply Hbad. reflexivity.
Defined.

(** Against C10 as worded, on a path that opens and cannot be read:
    [CompileShader] does not return the null handle there, does not do what
    it does for an empty file, and the constructor does not throw
    [GameWindowCannotBeInitializedException]. *)
Lemma unreadable_shader_file_counterexample :
  file_content demo_gl "shaders" = ReadError /\
  file_content demo_gl "shaders/empty.glsl" = Delivers EmptyString /\
  CompileShader demo_gl "shaders" GL_VERTEX_SHADER (mkConfig demo_window []) <>
    (Returns 0, mkConfig demo_window []) /\
  CompileShader demo_gl "shaders" GL_VERTEX_SHADER (mkConfig demo_window []) <>
    CompileShader demo_gl "shaders/empty.glsl" GL_VERTEX_SHADER (mkConfig demo_window []) /\
  ~ (exists hst',
       GameWindow_new_default demo_glm demo_gl 800 600
         "shaders" "shaders/basic.frag" 7 [] =
         (Throws GameWindowCannotBeInitializedException, hst')).
Proof.
  split; [reflexivity|]. split; [reflexivity|].
  split; [vm_compute; discriminate|]. split; [vm_compute; discriminate|].
  intros (hst' & H). vm_compute in H. discriminate H.
Qed.

Lemma construction_is_all_or_nothing_witness :
  file_content demo_gl "shaders/basic.vert" <> ReadError /\
  file_content demo_gl "shaders/basic.frag" <> ReadError /\
  ((exists this hst',
      GameWindow_new_default demo_glm demo_gl 800 600
        "shaders/basic.vert" "shaders/basic.frag" 7 [] = (Returns this, hst') /\
      program this <> 0 /\ window this <> 0) \/
   (exists hst',
      GameWindow_new_default demo_glm demo_gl 800 600
        "shaders/basic.vert" "shaders/basic.frag" 7 [] =
        (Throws GameWindowCannotBeInitializedException, hst'))).
Proof.
  split; [vm_compute; discriminate|]. split; [vm_compute; discriminate|].
  exact (proj2 (proj2 (construction_is_all_or_nothing demo_glm demo_gl 800 600
                         "shaders/basic.vert" "shaders/basic.frag" 7 F32.lit_45_0
                         (Color_rgb F32.lit_0_0 F32.lit_0_0 F32.lit_0_0) [])
                  ltac:(vm_compute; discriminate) ltac:(vm_compute; discriminate))).
Defined.

(** Against C6 as worded, on a shader path that opens and cannot be read:
    the constructor neither returns nor throws
    [GameWindowCannotBeInitializedException]. *)
Lemma construction_is_all_or_nothing_counterexample :
  fst (GameWindow_new_default demo_glm demo_gl 800 600
         "shaders" "shaders/basic.frag" 7 []) = Throws ios_base_failure /\
  ~ ((exists this hst',
        GameWindow_new_default demo_glm demo_gl 800 600
          "shaders" "shaders/basic.frag" 7 [] = (Returns this, hst') /\
        program this <> 0) \/
     (exists hst',
        GameWindow_new_default demo_glm demo_gl 800 600
          "shaders" "shaders/basic.frag" 7 [] =
          (Throws GameWindowCannotBeInitializedException, hst'))).
Proof.
  split; [vm_compute; reflexivity|].
  intros [(this & hst' & H & _)|(hst' & H)]; vm_compute in H; discriminate H.
Qed.

Lemma RemoveTexture_clears_matching_handle_witness :
  (exists m', RemoveTexture 4 (mkConfig (Material_new_default 5 9 F32.lit_1_0) []) =
                (Returns tt, mkConfig m' []) /\
              diffuse_handle m' = 5 /\ specular_handle m' = 9) /\
  (exists m', RemoveTexture 5 (mkConfig (Material_new_default 5 9 F32.lit_1_0) []) =
                (Returns tt, mkConfig m' []) /\
              diffuse_handle m' = 0 /\ specular_handle m' = 9) /\
  (exists m', RemoveTexture 9 (mkConfig (Material_new_default 5 9 F32.lit_1_0) []) =
                (Returns tt, mkConfig m' []) /\
              diffuse_handle m' = 5 /\ specular_handle m' = 0).
Proof.
  split; [|split].
  - destruct (RemoveTexture_clears_matching_handle (Material_new_default 5 9 F32.lit_1_0) 4 [])
      as (m' & Hrun & _ & _ & Hneither & _).
    exists m'. split; [exact Hrun|]. apply Hneither; simpl; discriminate.
  - destruct (RemoveTexture_clears_matching_handle (Material_new_default 5 9 F32.lit_1_0) 5 [])
      as (m' & Hrun & _ & _ & _ & Hdiffuse & _).
    exists m'. split; [exact Hrun|]. apply Hdiffuse; simpl; [reflexivity|discriminate].
  - destruct (RemoveTexture_clears_matching_handle (Material_new_default 5 9 F32.lit_1_0) 9 [])
      as (m' & Hrun & _ & _ & _ & _ & Hspecular & _).
    exists m'. split; [exact Hrun|]. apply Hspecular; simpl; [discriminate|reflexivity].
Defined.

Lemma UseMaterial_specular_only_witness :
  let m := Material_new_default 0 5 F32.lit_1_0 in
  diffuse_handle m = 0 /\
  specular_handle m <> 0 /\
  exists evs : list call,
    UseMaterial demo_gl 20 (mkConfig m []) = (Returns tt, mkConfig m ([] ++ evs)) /\
    uniform1i_writes evs = [(15, 0); (16, 1); (16, 1)] /\
    forall active : Z, texture_binds active evs = [(GL_TEXTURE1, GL_TEXTURE_2D, 5)].
Proof.
  simpl. split; [reflexivity|]. split; [discriminate|].
  destruct (UseMaterial_specular_only demo_gl (Material_new_default 0 5 F32.lit_1_0) 20 []
              eq_refl ltac:(discriminate))
    as (evs & Hrun & _ & Hwrites & Hbinds & _).
  exists evs. split; [exact Hrun|]. split; [exact Hwrites|exact Hbinds].
Defined.

Lemma LinkProgram_null_or_linked_witness :
  (exists c', LinkProgram demo_gl "shaders/empty.glsl" "shaders/basic.frag"
                (mkConfig demo_window []) = (Returns 0, c')) /\
  (exists c', LinkProgram demo_gl "shaders/basic.vert" "shaders/basic.frag"
                (mkConfig demo_window []) = (Returns 9, c')) /\
  (exists c', LinkProgram demo_gl_link_fails "shaders/basic.vert" "shaders/basic.frag"
                (mkConfig demo_window []) = (Returns 0, c')) /\
  (exists c', LinkProgram demo_gl_null_program "shaders/basic.vert" "shaders/basic.frag"
                (mkConfig demo_window []) = (Returns 0, c')).
Proof.
  split; [|split; [|split]].
  - destruct (LinkProgram_null_or_linked demo_gl "shaders/empty.glsl" "shaders/basic.frag"
                (mkConfig demo_window []) ltac:(vm_compute; discriminate)
                ltac:(vm_compute; discriminate))
      as (v & f & c1 & c2 & H1 & H2 & Hnull & _).
    exists c2. apply Hnull. left.
    vm_compute in H1. inversion H1. reflexivity.
  - destruct (LinkProgram_null_or_linked demo_gl "shaders/basic.vert" "shaders/basic.frag"
                (mkConfig demo_window []) ltac:(vm_compute; discriminate)
                ltac:(vm_compute; discriminate))
      as (v & f & c1 & c2 & H1 & H2 & _ & Hlinked).
    vm_compute in H1. inversion H1; subst v c1.
    vm_compute in H2. inversion H2; subst f c2.
    destruct (Hlinked ltac:(discriminate) ltac:(discriminate)) as (tail & Hrun & _ & Hok & _).
    rewrite Hrun, (Hok ltac:(discriminate) ltac:(discriminate)).
    eexists. reflexivity.
  - destruct (LinkProgram_null_or_linked demo_gl_link_fails "shaders/basic.vert" "shaders/basic.frag"
                (mkConfig demo_window []) ltac:(vm_compute; discriminate)
                ltac:(vm_compute; discriminate))
      as (v & f & c1 & c2 & H1 & H2 & _ & Hlinked).
    vm_compute in H1. inversion H1; subst v c1.
    vm_compute in H2. inversion H2; subst f c2.
    destruct (Hlinked ltac:(discriminate) ltac:(discriminate)) as (tail & Hrun & Hfail & _).
    rewrite Hrun, (Hfail eq_refl).
    eexists. reflexivity.
  - destruct (LinkProgram_null_or_linked demo_gl_null_program "shaders/basic.vert" "shaders/basic.frag"
                (mkConfig demo_window []) ltac:(vm_compute; discriminate)
                ltac:(vm_compute; discriminate))
      as (v & f & c1 & c2 & H1 & H2 & _ & Hlinked).
    vm_compute in H1. inversion H1; subst v c1.
    vm_compute in H2. inversion H2; subst f c2.
    destruct (Hlinked ltac:(discriminate) ltac:(discriminate))
      as (tail & Hrun & _ & _ & Hnone).
    rewrite Hrun, (Hnone ltac:(discriminate) eq_refl).
    eexists. reflexivity.
Defined.

Lemma UpdateFieldOfView_projection_witness :
  exists (this : GameWindow) (hst : history),
    UpdateDimensions demo_glm demo_gl 4000 1000 (mkConfig demo_window []) =
      (Returns tt, mkConfig this hst) /\
    current_viewport (hst ++ [glfwGetFramebufferSize (window this)]) =
      Some (0, 0, 1920, 1000) /\
    requested_window_size (hst ++ [glfwGetFramebufferSize (window this)]) =
      Some (4000, 1000).
Proof.
  eexists. eexists. split; [vm_compute; reflexivity|].
  match goal with
  | |- current_viewport (?h ++ [glfwGetFramebufferSize (window ?t)]) = _ /\ _ =>
      destruct (UpdateFieldOfView_projection demo_glm demo_gl F32.lit_100_0 t h)
        as (this' & _ & _ & _ & _ & _ & _ & _ & _ & Hafter)
  end.
  exact (Hafter 4000 1000 demo_window [] eq_refl).
Defined.

Lemma frame_uses_the_stored_program_witness :
  exists (this : GameWindow) (hst : history),
    GameWindow_new_default demo_glm demo_gl 800 600
      "shaders/basic.vert" "shaders/basic.frag" 7 [] = (Returns this, hst) /\
    program this = 23 /\
    exists prepare : list call,
      frame demo_gl [1; 2] (mkConfig this hst) =
        (Returns tt,
         mkConfig this (hst ++ prepare ++ [ModelInstance_Draw 1 23; ModelInstance_Draw 2 23;
                                           glfwSwapBuffers 4096])) /\
      programs_of prepare = [23; 23; 23].
Proof.
  eexists. eexists. split; [vm_compute; reflexivity|].
  split; [reflexivity|].
  match goal with
  | |- exists prepare, frame _ _ (mkConfig ?t ?h) = _ /\ _ =>
      destruct (frame_uses_the_stored_program demo_glm demo_gl 800 600
                  "shaders/basic.vert" "shaders/basic.frag" 7 F32.lit_45_0
                  (Color_rgb F32.lit_0_0 F32.lit_0_0 F32.lit_0_0) [] h t [1; 2]
                  (or_intror eq_refl))
        as (prepare & _ & Hframe & _ & Hprogs & _)
  end.
  exists prepare. split; [exact Hframe|exact Hprogs].
Defined.

(** * Further properties of gfx::Material *)

Section MaterialFurther.

Variable gl : Backend.

(** X12.  Removing two textures gives the same material in either order. *)
Theorem RemoveTexture_commutes :
  forall (m : Material) (id1 id2 : Z) (hst : history),
    bind (RemoveTexture id1) (fun _ => RemoveTexture id2) (mkConfig m hst) =
    bind (RemoveTexture id2) (fun _ => RemoveTexture id1) (mkConfig m hst).
Proof.
  intros m id1 id2 hst.
  rewrite (bind_returns _ _ _ _ _ (RemoveTexture_run m id1 hst)).
  rewrite (bind_returns _ _ _ _ _ (RemoveTexture_run m id2 hst)).
  rewrite !RemoveTexture_run. destruct m as [sh am d s]. simpl.
  assert (Hcomm : forall x : Z,
            (if (if x =? id1 then 0 else x) =? id2 then 0 else if x =? id1 then 0 else x) =
            (if (if x =? id2 then 0 else x) =? id1 then 0 else if x =? id2 then 0 else x)).
  { intros x.
    destruct (Z.eqb_spec x id1) as [E1|E1]; destruct (Z.eqb_spec x id2) as [E2|E2];
      repeat match goal with
             | |- context [?a =? ?b] => destruct (Z.eqb_spec a b); try congruence
             end. }
  rewrite (Hcomm d), (Hcomm s). reflexivity.
Qed.

(** X13.  After [RemoveTexture(id)] with a handle [id] that is not the null
    handle, the material refers to [id] nowhere: a handle shared by both
    slots is cleared in both.  [RemoveTexture(0)] changes nothing. *)
Theorem RemoveTexture_forgets_handle :
  forall (m : Material) (id : Z) (hst : history),
  exists m' : Material,
    RemoveTexture id (mkConfig m hst) = (Returns tt, mkConfig m' hst) /\
    (id <> 0 -> diffuse_handle m' <> id /\ specular_handle m' <> id) /\
    (diffuse_handle m = id -> specular_handle m = id ->
       diffuse_handle m' = 0 /\ specular_handle m' = 0) /\
    (diffuse_handle m' = 0 \/ diffuse_handle m' = diffuse_handle m) /\
    (specular_handle m' = 0 \/ specular_handle m' = specular_handle m) /\
    (id = 0 -> m' = m).
Proof.
  intros m id hst. eexists. split; [apply RemoveTexture_run|].
  destruct m as [sh am d s]. simpl.
  destruct (Z.eqb_spec d id) as [Hd|Hd]; destruct (Z.eqb_spec s id) as [Hs|Hs];
    repeat split; intros; subst; try congruence; auto.
Qed.

(** The texture binds of [UseMaterial], whatever the material. *)
Lemma UseMaterial_binds_on_fixed_units_aux (m : Material) (program : Z) (hst : history) :
  exists evs : list call,
    UseMaterial gl program (mkConfig m hst) = (Returns tt, mkConfig m (hst ++ evs)) /\
    forall active : Z,
      texture_binds active evs =
        (if diffuse_handle m =? 0 then []
         else [(GL_TEXTURE0, GL_TEXTURE_2D, diffuse_handle m)]) ++
        (if specular_handle m =? 0 then []
         else [(GL_TEXTURE1, GL_TEXTURE_2D, specular_handle m)]).
Proof.
  destruct m as [sh am d s]. unfold UseMaterial. run.
  destruct (d =? 0); simpl; destruct (s =? 0); simpl;
    eexists; (split; [settle; reflexivity|]); intros; reflexivity.
Qed.

(** X10.  What [UseMaterial] does for every material, call by call and
    location by location: the ambient coefficient and the shininess go to
    the locations looked up for them; [diffuse_enabled] gets 1 exactly when
    the diffuse handle is not null, and then that handle is bound on
    [GL_TEXTURE0] and the location of [diffuse_texture] gets 0;
    [specular_enabled] gets 1 exactly when the specular handle is not null,
    and then that handle is bound on [GL_TEXTURE1] and the location of
    [specular_texture] gets 1.  Each location is the backend's answer to
    the lookup of that name in the program passed in, made at that point.
    The material is unchanged. *)
Theorem UseMaterial_binds_on_fixed_units :
  forall (m : Material) (program : Z) (hst : history),
    let diffuse := diffuse_handle m in
    let specular := specular_handle m in
    let ambient_location := glGetUniformLocation_ret gl hst program "ambient_coefficient" in
    let h1 := hst ++ [glGetUniformLocation program "ambient_coefficient";
                      glUniform1f ambient_location (ambient_coefficient m)] in
    let shininess_location := glGetUniformLocation_ret gl h1 program "shininess" in
    let h2 := h1 ++ [glGetUniformLocation program "shininess";
                     glUniform1f shininess_location (shininess m)] in
    let diffuse_enabled_location := glGetUniformLocation_ret gl h2 program "diffuse_enabled" in
    let h3 := h2 ++ [glGetUniformLocation program "diffuse_enabled";
                     glUniform1i diffuse_enabled_location (if diffuse =? 0 then 0 else 1)] in
    let h3_bound := h3 ++ [glActiveTexture GL_TEXTURE0;
                           glBindTexture GL_TEXTURE_2D diffuse] in
    let diffuse_texture_location :=
      glGetUniformLocation_ret gl h3_bound program "diffuse_texture" in
    let h4 := if diffuse =? 0 then h3
              else h3_bound ++ [glGetUniformLocation program "diffuse_texture";
                                glUniform1i diffuse_texture_location 0] in
    let specular_enabled_location :=
      glGetUniformLocation_ret gl h4 program "specular_enabled" in
    let h5 := h4 ++ [glGetUniformLocation program "specular_enabled";
                     cout ("specular_enabled " ++ (if (specular =? 0)%Z then "0" else "1")
                             ++ endl)%string;
                     glUniform1i specular_enabled_location
                       (if specular =? 0 then 0 else 1)] in
    let h5_bound := h5 ++ [glActiveTexture GL_TEXTURE1;
                           glBindTexture GL_TEXTURE_2D specular] in
    let specular_texture_location :=
      glGetUniformLocation_ret gl h5_bound program "specular_texture" in
    let h6 := if specular =? 0 then h5
              else h5_bound ++ [glGetUniformLocation program "specular_texture";
                                glUniform1i specular_texture_location 1] in
    exists evs : list call,
      UseMaterial gl program (mkConfig m hst) = (Returns tt, mkConfig m (hst ++ evs)) /\
      hst ++ evs = h6 /\
      (forall active : Z,
         texture_binds active evs =
           (if diffuse =? 0 then [] else [(GL_TEXTURE0, GL_TEXTURE_2D, diffuse)]) ++
           (if specular =? 0 then [] else [(GL_TEXTURE1, GL_TEXTURE_2D, specular)])) /\
      uniform1f_writes evs =
        [(ambient_location, ambient_coefficient m); (shininess_location, shininess m)] /\
      uniform1i_writes evs =
        [(diffuse_enabled_location, if diffuse =? 0 then 0 else 1)] ++
        (if diffuse =? 0 then [] else [(diffuse_texture_location, 0)]) ++
        [(specular_enabled_location, if specular =? 0 then 0 else 1)] ++
        (if specular =? 0 then [] else [(specular_texture_location, 1)]) /\
      uniform_lookups evs =
        [(program, "ambient_coefficient"); (program, "shininess");
         (program, "diffuse_enabled")] ++
        (if diffuse =? 0 then [] else [(program, "diffuse_texture")]) ++
        [(program, "specular_enabled")] ++
        (if specular =? 0 then [] else [(program, "specular_texture")]).
Proof.
  intros [sh am d s] program hst. simpl. unfold UseMaterial. run.
  destruct (d =? 0); simpl; destruct (s =? 0); simpl;
    eexists; (split; [settle; reflexivity|]);
    (split; [settle; reflexivity|]);
    repeat split; intros; settle; reflexivity.
Qed.

(** X11.  A texture that was removed is not bound again: after
    [RemoveTexture(id)], [UseMaterial] binds [id] on no unit and no
    target.  (The null handle is never bound at all.) *)
Theorem removed_texture_is_never_bound :
  forall (m : Material) (id program : Z) (hst : history),
  exists (m' : Material) (evs : list call),
    bind (RemoveTexture id) (fun _ => UseMaterial gl program) (mkConfig m hst) =
      (Returns tt, mkConfig m' (hst ++ evs)) /\
    forall active unit target : Z, ~ In (unit, target, id) (texture_binds active evs).
Proof.
  intros m id program hst.
  rewrite (bind_returns _ _ _ _ _ (RemoveTexture_run m id hst)).
  match goal with
  | |- context [UseMaterial gl program (mkConfig ?m1 hst)] =>
      destruct (UseMaterial_binds_on_fixed_units_aux m1 program hst) as (evs & Hrun & Hbinds);
      exists m1, evs
  end.
  split; [exact Hrun|].
  intros active unit target Hin. rewrite Hbinds in Hin.
  destruct m as [sh am d s]. simpl in Hin.
  apply in_app_or in Hin.
  destruct Hin as [Hin|Hin];
    [destruct (Z.eqb_spec d id) as [E|E] | destruct (Z.eqb_spec s id) as [E|E]];
    simpl in Hin;
    try contradiction;
    match type of Hin with
    | context [if ?x =? 0 then _ else _] => destruct (Z.eqb_spec x 0)
    end; simpl in Hin; try contradiction;
    destruct Hin as [Hin|[]]; inversion Hin; congruence.
Qed.

End MaterialFurther.

(** * Further properties of gfx::GameWindow *)

Lemma deleted_shaders_app (xs ys : list call) :
  deleted_shaders (xs ++ ys) = deleted_shaders xs ++ deleted_shaders ys.
Proof.
  induction xs as [|c xs IH]; simpl; [reflexivity|].
  destruct c; simpl; rewrite IH; reflexivity.
Qed.

Lemma attached_shaders_app (xs ys : list call) :
  attached_shaders (xs ++ ys) = attached_shaders xs ++ attached_shaders ys.
Proof.
  induction xs as [|c xs IH]; simpl; [reflexivity|].
  destruct c; simpl; rewrite IH; reflexivity.
Qed.

Lemma created_programs_app (xs ys : list call) :
  created_programs (xs ++ ys) = (created_programs xs + created_programs ys)%nat.
Proof.
  induction xs as [|c xs IH]; simpl; [reflexivity|].
  destruct c; simpl; rewrite IH; reflexivity.
Qed.

Lemma framebuffer_answers_app (gl : Backend) (xs ys : list call) :
  forall (before : history) (last : option (Z * Z)),
    framebuffer_answers gl before (xs ++ ys) last =
    framebuffer_answers gl (before ++ xs) ys (framebuffer_answers gl before xs last).
Proof.
  induction xs as [|c xs IH]; intros before last; simpl.
  - rewrite app_nil_r. reflexivity.
  - rewrite IH. rewrite <- app_assoc. reflexivity.
Qed.

Lemma last_framebuffer_size_app (gl : Backend) (h evs : history) :
  last_framebuffer_size gl (h ++ evs) =
  framebuffer_answers gl h evs (last_framebuffer_size gl h).
Proof. unfold last_framebuffer_size. rewrite framebuffer_answers_app. reflexivity. Qed.

(** Calls that are not framebuffer queries leave the last answer alone. *)
Lemma framebuffer_answers_other (gl : Backend) (f : call -> bool) :
  (forall (c : call) (w : Z), f c = true -> c <> glfwGetFramebufferSize w) ->
  forall (evs : list call) (before : history) (last : option (Z * Z)),
    forallb f evs = true ->
    framebuffer_answers gl before evs last = last.
Proof.
  intros Hf. induction evs as [|c evs IH]; intros before last Hall; simpl; [reflexivity|].
  simpl in Hall. apply andb_true_iff in Hall. destruct Hall as [Hc Hrest].
  rewrite (IH _ _ Hrest).
  destruct c; try reflexivity.
  exfalso. exact (Hf _ _ Hc eq_refl).
Qed.

Lemma shader_stage_call_no_query (c : call) (w : Z) :
  shader_stage_call c = true -> c <> glfwGetFramebufferSize w.
Proof. intros H E. subst c. discriminate H. Qed.

Lemma frame_call_no_query (c : call) (w : Z) :
  frame_call c = true -> c <> glfwGetFramebufferSize w.
Proof. intros H E. subst c. discriminate H. Qed.

(** Shader-stage calls leave the viewport alone. *)
Lemma viewport_after_shader_stage (evs : list call) (vp : option (Z * Z * Z * Z)) :
  forallb shader_stage_call evs = true -> fold_left viewport_step evs vp = vp.
Proof.
  revert vp. induction evs as [|c evs IH]; intros vp Hall; simpl; [reflexivity|].
  simpl in Hall. apply andb_true_iff in Hall. destruct Hall as [Hc Hrest].
  rewrite (IH _ Hrest). destruct c; try reflexivity. discriminate Hc.
Qed.

Section ConstructionFurther.

Variable glm : Glm.
Variable gl : Backend.

(** The calls every construction starts with. *)
Lemma InitializeGameWindow_run (width height : Z) (color : Color) (this : GameWindow)
    (hst : history) :
  let setup := hst ++ [glfwInit;
                       glfwWindowHint GLFW_CONTEXT_VERSION_MAJOR 3;
                       glfwWindowHint GLFW_CONTEXT_VERSION_MINOR 3;
                       glfwWindowHint GLFW_OPENGL_PROFILE GLFW_OPENGL_CORE_PROFILE;
                       glfwWindowHint GLFW_OPENGL_FORWARD_COMPAT GL_TRUE;
                       glfwWindowHint GLFW_RESIZABLE GL_FALSE] in
  let created := glfwCreateWindow_ret gl setup width height "OpenGL" in
  let current := setup ++ [glfwCreateWindow width height "OpenGL";
                           glfwMakeContextCurrent created;
                           gladLoadGL;
                           glEnable GL_DEPTH_TEST;
                           glClearColor (r color) (g color) (b color) (a color);
                           glfwSetWindowSize created width height] in
  let real := glfwGetFramebufferSize_ret gl current created in
  InitializeGameWindow glm gl width height color (mkConfig this hst) =
  if created =? 0 then
    (Throws GameWindowCannotBeInitializedException,
     mkConfig (set_window created this)
       (setup ++ [glfwCreateWindow width height "OpenGL";
                  cout ("Failed to create OpenGL context." ++ endl)%string;
                  glfwTerminate]))
  else
    (Returns tt,
     mkConfig (set_perspective_projection
                 (perspective glm (radians glm (field_of_view this))
                    (F32.div (F32.of_int (fst real)) (F32.of_int (snd real)))
                    F32.lit_0_1 F32.lit_100_0)
                 (set_window created this))
       (current ++ [glfwGetFramebufferSize created;
                    glViewport 0 0 (fst real) (snd real)])).
Proof.
  simpl. unfold InitializeGameWindow, SetBufferClearColor, UpdateDimensions,
    UpdatePerspectiveProjection. run. settle.
  match goal with
  | |- context [if ?x =? 0 then _ else _] => destruct (x =? 0)
  end; simpl; settle; reflexivity.
Qed.

(** What [CompileShader] does with a file that is not empty. *)
Lemma CompileShader_run (path : string) (shader_type : Z) (this : GameWindow)
    (hst : history) (content : string) :
  let shader := glCreateShader_ret gl hst shader_type in
  let compiled := hst ++ [glCreateShader shader_type;
                          glShaderSource shader (c_str content);
                          glCompileShader shader] in
  let success := glGetShaderiv_ret gl compiled shader GL_COMPILE_STATUS in
  let checked := compiled ++ [glGetShaderiv shader GL_COMPILE_STATUS] in
  let info_log := info_log_512 (glGetShaderInfoLog_ret gl checked shader) in
  read_all (file_content gl) path = Returns content ->
  content <> EmptyString ->
  CompileShader gl path shader_type (mkConfig this hst) =
  if success =? 0 then
    (Returns 0,
     mkConfig this
       (checked ++ [glGetShaderInfoLog shader 512;
                    cout ("Shader compilation of '" ++ path ++ "' failed:" ++ endl
                            ++ info_log ++ endl)%string]))
  else (Returns shader, mkConfig this checked).
Proof.
  simpl. intros Hread Hne. unfold CompileShader, bind at 1, lift. rewrite Hread.
  destruct (Z.eqb_spec (size content) 0) as [E|E].
  - apply size_zero_iff_empty in E. contradiction.
  - run. settle.
    match goal with
    | |- context [if ?x =? 0 then _ else _] => destruct (x =? 0)
    end; simpl; settle; reflexivity.
Qed.

(** The calls of [CompileShader] when the read does not fail: shader-stage
    calls only, and it neither deletes a shader nor creates a program. *)
Lemma CompileShader_events (path : string) (shader_type : Z) (c : config GameWindow) :
  file_content gl path <> ReadError ->
  exists (shader : Z) (evs : list call),
    CompileShader gl path shader_type c =
      (Returns shader, mkConfig (self c) (hist c ++ evs)) /\
    forallb shader_stage_call evs = true /\
    deleted_shaders evs = [] /\
    attached_shaders evs = [] /\
    created_programs evs = O.
Proof.
  intros Hread. destruct c as [this hst]. simpl.
  destruct (read_all_returns gl path Hread) as (content & Hcontent).
  destruct (string_dec content EmptyString) as [E|E].
  - subst content. rewrite (CompileShader_empty gl path Hcontent). exists 0, [].
    rewrite app_nil_r. repeat split.
  - rewrite (CompileShader_run path shader_type this hst content Hcontent E).
    match goal with
    | |- context [if ?x =? 0 then _ else _] => destruct (x =? 0)
    end; eexists; eexists; (split; [settle; reflexivity|]); repeat split.
Qed.

(** The shader and program objects [LinkProgram] touches, when neither read
    fails. *)
Lemma LinkProgram_events (vertex_path fragment_path : string) (c : config GameWindow) :
  file_content gl vertex_path <> ReadError ->
  file_content gl fragment_path <> ReadError ->
  exists (vertex_shader frag_shader linked : Z) (c1 c2 : config GameWindow)
         (evs : list call),
    CompileShader gl vertex_path GL_VERTEX_SHADER c = (Returns vertex_shader, c1) /\
    CompileShader gl fragment_path GL_FRAGMENT_SHADER c1 = (Returns frag_shader, c2) /\
    LinkProgram gl vertex_path fragment_path c =
      (Returns linked, mkConfig (self c) (hist c ++ evs)) /\
    forallb shader_stage_call evs = true /\
    (vertex_shader = 0 \/ frag_shader = 0 ->
       linked = 0 /\ hist c ++ evs = hist c2 /\
       deleted_shaders evs = [] /\ attached_shaders evs = [] /\
       created_programs evs = O) /\
    (vertex_shader <> 0 -> frag_shader <> 0 ->
       let created := glCreateProgram_ret gl (hist c2) in
       created_programs evs = 1%nat /\
       attached_shaders evs = [(created, vertex_shader); (created, frag_shader)] /\
       deleted_shaders evs = [vertex_shader; frag_shader] /\
       (linked = 0 \/ linked = created)).
Proof.
  intros Hvread Hfread.
  destruct (CompileShader_events vertex_path GL_VERTEX_SHADER c Hvread)
    as (v & e1 & H1 & Hs1 & Hd1 & Ha1 & Hc1).
  destruct (CompileShader_events fragment_path GL_FRAGMENT_SHADER
              (mkConfig (self c) (hist c ++ e1)) Hfread)
    as (f & e2 & H2 & Hs2 & Hd2 & Ha2 & Hc2).
  exists v, f.
  unfold LinkProgram.
  rewrite (bind_returns _ _ _ _ _ H1), (bind_returns _ _ _ _ _ H2).
  simpl in *.
  destruct (Z.eqb_spec v 0) as [Hv|Hv]; [|destruct (Z.eqb_spec f 0) as [Hf|Hf]]; simpl.
  - exists 0. eexists. eexists. exists (e1 ++ e2).
    split; [exact H1|]. split; [exact H2|].
    unfold ret. rewrite app_assoc.
    split; [reflexivity|]. rewrite forallb_app, Hs1, Hs2.
    split; [reflexivity|].
    rewrite deleted_shaders_app, attached_shaders_app, created_programs_app,
      Hd1, Hd2, Ha1, Ha2, Hc1, Hc2.
    split; [intros _; repeat split|intros Hn; contradiction].
  - exists 0. eexists. eexists. exists (e1 ++ e2).
    split; [exact H1|]. split; [exact H2|].
    unfold ret. rewrite app_assoc.
    split; [reflexivity|]. rewrite forallb_app, Hs1, Hs2.
    split; [reflexivity|].
    rewrite deleted_shaders_app, attached_shaders_app, created_programs_app,
      Hd1, Hd2, Ha1, Ha2, Hc1, Hc2.
    split; [intros _; repeat split|intros _ Hn; contradiction].
  - run.
    match goal with
    | |- context [if ?x =? 0 then _ else _] => destruct (x =? 0)
    end; simpl;
    [| match goal with
       | |- context [if ?x =? 0 then _ else _] => destruct (Z.eqb_spec x 0) as [Ep|Ep]
       end; simpl ];
    eexists; eexists; eexists; eexists;
    (split; [exact H1|]); (split; [exact H2|]);
    (split; [settle; reflexivity|]);
    rewrite !forallb_app, Hs1, Hs2;
    (split; [reflexivity|]);
    (split; [intros [E|E]; contradiction|]);
    intros _ _;
    rewrite !deleted_shaders_app, !attached_shaders_app, !created_programs_app,
      Hd1, Hd2, Ha1, Ha2, Hc1, Hc2; simpl;
    (split; [reflexivity|]); (split; [settle; reflexivity|]);
    (split; [reflexivity|]);
    settle; auto.
Qed.

(** X1.  When no window can be created, both constructors throw right after
    [glfwCreateWindow]: the failure is reported, GLFW is terminated, and
    nothing else happens; no context is made current, no OpenGL function is
    loaded or called, no shader file is compiled. *)
Theorem no_window_no_surface :
  forall (width height : Z) (vertex_path fragment_path : string) (camera : Z)
         (fov : GLfloat) (color : Color) (hst : history),
    let setup := hst ++ [glfwInit;
                         glfwWindowHint GLFW_CONTEXT_VERSION_MAJOR 3;
                         glfwWindowHint GLFW_CONTEXT_VERSION_MINOR 3;
                         glfwWindowHint GLFW_OPENGL_PROFILE GLFW_OPENGL_CORE_PROFILE;
                         glfwWindowHint GLFW_OPENGL_FORWARD_COMPAT GL_TRUE;
                         glfwWindowHint GLFW_RESIZABLE GL_FALSE] in
    let failed := setup ++ [glfwCreateWindow width height "OpenGL";
                            cout ("Failed to create OpenGL context." ++ endl)%string;
                            glfwTerminate] in
    glfwCreateWindow_ret gl setup width height "OpenGL" = 0 ->
    GameWindow_new glm gl width height vertex_path fragment_path camera fov color hst =
      (Throws GameWindowCannotBeInitializedException, failed) /\
    GameWindow_new_default glm gl width height vertex_path fragment_path camera hst =
      (Throws GameWindowCannotBeInitializedException, failed).
Proof.
  intros width height vertex_path fragment_path camera fov color hst. simpl. intros Hnull.
  unfold GameWindow_new, GameWindow_new_default, construct, GameWindow_body.
  split.
  - match goal with
    | |- context [bind (InitializeGameWindow glm gl ?w ?h ?col) _ (mkConfig ?t ?hs)] =>
        pose proof (InitializeGameWindow_run w h col t hs) as Hinit
    end.
    simpl in Hinit. rewrite Hnull in Hinit. simpl in Hinit.
    rewrite (bind_throws _ _ _ _ _ Hinit). reflexivity.
  - match goal with
    | |- context [bind (InitializeGameWindow glm gl ?w ?h ?col) _ (mkConfig ?t ?hs)] =>
        pose proof (InitializeGameWindow_run w h col t hs) as Hinit
    end.
    simpl in Hinit. rewrite Hnull in Hinit. simpl in Hinit.
    rewrite (bind_throws _ _ _ _ _ Hinit). reflexivity.
Qed.

(** X3.  A shader file that is not empty: [CompileShader] creates a shader
    object, hands it the text up to the first NUL, compiles it and asks for
    the status.  On success the result is the handle [glCreateShader] gave;
    on failure the log is fetched and printed with the path, the result is
    the null handle, and the shader object is not deleted. *)
Theorem CompileShader_compiles_a_nonempty_file :
  forall (path : string) (shader_type : Z) (this : GameWindow) (hst : history)
         (content : string),
    let shader := glCreateShader_ret gl hst shader_type in
    let compiled := hst ++ [glCreateShader shader_type;
                            glShaderSource shader (c_str content);
                            glCompileShader shader] in
    let success := glGetShaderiv_ret gl compiled shader GL_COMPILE_STATUS in
    let checked := compiled ++ [glGetShaderiv shader GL_COMPILE_STATUS] in
    let info_log := info_log_512 (glGetShaderInfoLog_ret gl checked shader) in
    read_all (file_content gl) path = Returns content ->
    content <> EmptyString ->
    (success <> 0 ->
       CompileShader gl path shader_type (mkConfig this hst) =
         (Returns shader, mkConfig this checked)) /\
    (success = 0 ->
       exists evs : list call,
         CompileShader gl path shader_type (mkConfig this hst) =
           (Returns 0, mkConfig this (hst ++ evs)) /\
         hst ++ evs =
           checked ++ [glGetShaderInfoLog shader 512;
                       cout ("Shader compilation of '" ++ path ++ "' failed:" ++ endl
                               ++ info_log ++ endl)%string] /\
         deleted_shaders evs = []).
Proof.
  intros path shader_type this hst content. simpl. intros Hread Hne.
  pose proof (CompileShader_run path shader_type this hst content Hread Hne) as Hrun.
  simpl in Hrun.
  split; intros Hs.
  - apply Z.eqb_neq in Hs. rewrite Hs in Hrun. exact Hrun.
  - rewrite Hs in Hrun. simpl in Hrun. rewrite Hrun.
    eexists. split; [settle; reflexivity|]. split; [settle; reflexivity|]. reflexivity.
Qed.

(** X4.  When neither read fails, [LinkProgram] returns, leaves the object
    alone and makes shader-stage calls only.  If one of the two handles
    [CompileShader] returned is null, it makes no call after the two
    compilations (no program is created, nothing is attached or deleted)
    and answers 0.  Otherwise it creates exactly one program, attaches the
    two handles [CompileShader] returned to the handle [glCreateProgram]
    returned, deletes exactly those two shaders, and answers that program
    or 0. *)
Theorem LinkProgram_deletes_what_it_attached :
  forall (vertex_path fragment_path : string) (c : config GameWindow),
    file_content gl vertex_path <> ReadError ->
    file_content gl fragment_path <> ReadError ->
    exists (vertex_shader frag_shader linked : Z) (c1 c2 : config GameWindow)
           (evs : list call),
      CompileShader gl vertex_path GL_VERTEX_SHADER c = (Returns vertex_shader, c1) /\
      CompileShader gl fragment_path GL_FRAGMENT_SHADER c1 = (Returns frag_shader, c2) /\
      LinkProgram gl vertex_path fragment_path c =
        (Returns linked, mkConfig (self c) (hist c ++ evs)) /\
      forallb shader_stage_call evs = true /\
      (vertex_shader = 0 \/ frag_shader = 0 ->
         linked = 0 /\ hist c ++ evs = hist c2 /\
         deleted_shaders evs = [] /\ attached_shaders evs = [] /\
         created_programs evs = O) /\
      (vertex_shader <> 0 -> frag_shader <> 0 ->
         let created := glCreateProgram_ret gl (hist c2) in
         created_programs evs = 1%nat /\
         attached_shaders evs = [(created, vertex_shader); (created, frag_shader)] /\
         deleted_shaders evs = [vertex_shader; frag_shader] /\
         (linked = 0 \/ linked = created)).
Proof. exact LinkProgram_events. Qed.

(** What a returning constructor has done, read off its result. *)
Lemma GameWindow_new_returns (width height : Z) (vertex_path fragment_path : string)
    (camera : Z) (fov : GLfloat) (color : Color) (hst hst' : history) (this : GameWindow) :
  GameWindow_new glm gl width height vertex_path fragment_path camera fov color hst =
    (Returns this, hst') ->
  let setup := hst ++ [glfwInit;
                       glfwWindowHint GLFW_CONTEXT_VERSION_MAJOR 3;
                       glfwWindowHint GLFW_CONTEXT_VERSION_MINOR 3;
                       glfwWindowHint GLFW_OPENGL_PROFILE GLFW_OPENGL_CORE_PROFILE;
                       glfwWindowHint GLFW_OPENGL_FORWARD_COMPAT GL_TRUE;
                       glfwWindowHint GLFW_RESIZABLE GL_FALSE] in
  let created := glfwCreateWindow_ret gl setup width height "OpenGL" in
  let current := setup ++ [glfwCreateWindow width height "OpenGL";
                           glfwMakeContextCurrent created;
                           gladLoadGL;
                           glEnable GL_DEPTH_TEST;
                           glClearColor (r color) (g color) (b color) (a color);
                           glfwSetWindowSize created width height] in
  let real := glfwGetFramebufferSize_ret gl current created in
  let sized := current ++ [glfwGetFramebufferSize created;
                           glViewport 0 0 (fst real) (snd real)] in
  created <> 0 /\
  exists (linked : Z) (evs : list call),
    linked <> 0 /\
    forallb shader_stage_call evs = true /\
    hst' = sized ++ evs /\
    this = mkGameWindow camera created fov linked
             (perspective glm (radians glm fov)
                (F32.div (F32.of_int (fst real)) (F32.of_int (snd real)))
                F32.lit_0_1 F32.lit_100_0).
Proof.
  simpl. unfold GameWindow_new, construct, GameWindow_body.
  match goal with
  | |- context [bind (InitializeGameWindow glm gl ?w ?h ?col) _ (mkConfig ?t ?hs)] =>
      pose proof (InitializeGameWindow_run w h col t hs) as Hinit
  end.
  simpl in Hinit.
  match type of Hinit with
  | context [if ?x =? 0 then _ else _] => destruct (Z.eqb_spec x 0) as [E|E]
  end.
  - rewrite (bind_throws _ _ _ _ _ Hinit). discriminate.
  - rewrite (bind_returns _ _ _ _ _ Hinit).
    cbv beta.
    match goal with
    | |- context [bind (LinkProgram gl ?v ?f) _ ?c] =>
        destruct (LinkProgram_outcome gl v f c)
          as [(p & evs & Hlink & Hstage & _)|(evs & Hlink & _)]
    end; [|rewrite (bind_throws _ _ _ _ _ Hlink); discriminate].
    rewrite (bind_returns _ _ _ _ _ Hlink). run.
    destruct (Z.eqb_spec p 0) as [Hp|Hp]; [discriminate|].
    intros H. inversion H; subst. split; [exact E|].
    exists p, evs. repeat split; auto.
Qed.

(** X2.  What the caller holds after a constructor has returned: a window that
    is not null, made current before glad was loaded and before any OpenGL
    call; depth testing on and the clear colour set; a viewport of the size
    the backend reported, not the size asked for; the camera and field of
    view passed in; the projection for that field of view and that reported
    size; a program that is not null; and after the window setup nothing
    but shader-stage calls.  ([GameWindow_new_default] is [GameWindow_new]
    with 45 degrees and opaque black.) *)
Theorem constructed_window_state :
  forall (width height : Z) (vertex_path fragment_path : string) (cam : Z)
         (fov : GLfloat) (color : Color) (hst hst' : history) (this : GameWindow),
    GameWindow_new glm gl width height vertex_path fragment_path cam fov color hst =
      (Returns this, hst') ->
    let setup := hst ++ [glfwInit;
                         glfwWindowHint GLFW_CONTEXT_VERSION_MAJOR 3;
                         glfwWindowHint GLFW_CONTEXT_VERSION_MINOR 3;
                         glfwWindowHint GLFW_OPENGL_PROFILE GLFW_OPENGL_CORE_PROFILE;
                         glfwWindowHint GLFW_OPENGL_FORWARD_COMPAT GL_TRUE;
                         glfwWindowHint GLFW_RESIZABLE GL_FALSE] in
    let created := glfwCreateWindow_ret gl setup width height "OpenGL" in
    let current := setup ++ [glfwCreateWindow width height "OpenGL";
                             glfwMakeContextCurrent created;
                             gladLoadGL;
                             glEnable GL_DEPTH_TEST;
                             glClearColor (r color) (g color) (b color) (a color);
                             glfwSetWindowSize created width height] in
    let real := glfwGetFramebufferSize_ret gl current created in
    let sized := current ++ [glfwGetFramebufferSize created;
                             glViewport 0 0 (fst real) (snd real)] in
    window this = created /\ created <> 0 /\
    camera this = cam /\
    field_of_view this = fov /\
    perspective_projection this =
      perspective glm (radians glm fov)
        (F32.div (F32.of_int (fst real)) (F32.of_int (snd real)))
        F32.lit_0_1 F32.lit_100_0 /\
    program this <> 0 /\
    (exists evs : list call,
       hst' = sized ++ evs /\ forallb shader_stage_call evs = true) /\
    current_viewport hst' = Some (0, 0, fst real, snd real) /\
    projection_consistent glm gl this hst'.
Proof.
  intros width height vertex_path fragment_path cam fov color hst hst' this Hnew.
  destruct (GameWindow_new_returns _ _ _ _ _ _ _ _ _ _ Hnew)
    as (Hcreated & p & evs & Hp & Hstage & Hhist & Hthis).
  simpl in *. subst this. simpl.
  repeat (split; [first [reflexivity | assumption]|]).
  split; [exists evs; split; [exact Hhist|exact Hstage]|].
  split.
  - rewrite Hhist. rewrite !current_viewport_app.
    rewrite (viewport_after_shader_stage _ _ Hstage). reflexivity.
  - unfold projection_consistent. simpl. eexists. split; [|reflexivity].
    rewrite Hhist. rewrite !last_framebuffer_size_app.
    rewrite (framebuffer_answers_other gl _ shader_stage_call_no_query _ _ _ Hstage).
    reflexivity.
Qed.

(** On a backend where nothing fails, two files that are not empty link
    into a program that is not null. *)
Lemma LinkProgram_succeeds (vertex_path fragment_path vertex_source fragment_source : string)
    (c : config GameWindow) :
  always_succeeds gl ->
  read_all (file_content gl) vertex_path = Returns vertex_source ->
  vertex_source <> EmptyString ->
  read_all (file_content gl) fragment_path = Returns fragment_source ->
  fragment_source <> EmptyString ->
  exists (linked : Z) (evs : list call),
    LinkProgram gl vertex_path fragment_path c =
      (Returns linked, mkConfig (self c) (hist c ++ evs)) /\
    linked <> 0 /\
    In (glLinkProgram linked) evs.
Proof.
  intros (_ & Hshader & Hcompile & Hprogram & Hlink) Hvr Hv Hfr Hf.
  destruct c as [this hst]. simpl.
  pose proof (CompileShader_run vertex_path GL_VERTEX_SHADER this hst _ Hvr Hv) as H1.
  simpl in H1. rewrite (proj2 (Z.eqb_neq _ _) (Hcompile _ _)) in H1.
  unfold LinkProgram. rewrite (bind_returns _ _ _ _ _ H1).
  match type of H1 with
  | _ = (_, mkConfig _ ?h1) =>
      pose proof (CompileShader_run fragment_path GL_FRAGMENT_SHADER this h1 _ Hfr Hf) as H2
  end.
  simpl in H2. rewrite (proj2 (Z.eqb_neq _ _) (Hcompile _ _)) in H2.
  rewrite (bind_returns _ _ _ _ _ H2).
  rewrite !(proj2 (Z.eqb_neq _ _) (Hshader _ _)). simpl.
  run.
  rewrite (proj2 (Z.eqb_neq _ _) (Hlink _ _)).
  rewrite (proj2 (Z.eqb_neq _ _) (Hprogram _)). simpl.
  eexists. eexists. split; [settle; reflexivity|].
  split; [apply Hprogram|].
  simpl. settle. auto 20.
Qed.

(** X5.  With shader files that are read without failure and are not
    empty, on a backend where window creation, shader creation,
    compilation, program creation and linking all succeed, both
    constructors return, with a program that is not null and that was
    linked. *)
Theorem construction_succeeds_when_nothing_fails :
  forall (width height : Z) (vertex_path fragment_path : string) (cam : Z)
         (fov : GLfloat) (color : Color) (hst : history)
         (vertex_source fragment_source : string),
    always_succeeds gl ->
    read_all (file_content gl) vertex_path = Returns vertex_source ->
    vertex_source <> EmptyString ->
    read_all (file_content gl) fragment_path = Returns fragment_source ->
    fragment_source <> EmptyString ->
    (exists (this : GameWindow) (hst' : history),
       GameWindow_new glm gl width height vertex_path fragment_path cam fov color hst =
         (Returns this, hst') /\
       program this <> 0 /\ In (glLinkProgram (program this)) hst') /\
    (exists (this : GameWindow) (hst' : history),
       GameWindow_new_default glm gl width height vertex_path fragment_path cam hst =
         (Returns this, hst') /\
       program this <> 0 /\ In (glLinkProgram (program this)) hst').
Proof.
  intros width height vertex_path fragment_path cam fov color hst
    vertex_source fragment_source Hok Hvr Hv Hfr Hf.
  assert (Hany : forall (init : GameWindow) (col : Color),
            exists this hst',
              construct init
                (GameWindow_body glm gl width height vertex_path fragment_path col) hst =
                (Returns this, hst') /\
              program this <> 0 /\ In (glLinkProgram (program this)) hst').
  { intros init col. unfold construct, GameWindow_body.
    pose proof (InitializeGameWindow_run width height col init hst) as Hinit.
    simpl in Hinit.
    rewrite (proj2 (Z.eqb_neq _ _) (proj1 Hok _ _ _ _)) in Hinit.
    rewrite (bind_returns _ _ _ _ _ Hinit). cbv beta.
    match goal with
    | |- context [bind (LinkProgram gl ?v ?f) _ ?c] =>
        destruct (LinkProgram_succeeds v f _ _ c Hok Hvr Hv Hfr Hf)
          as (p & evs & Hlink & Hp & Hin)
    end.
    rewrite (bind_returns _ _ _ _ _ Hlink). run.
    rewrite (proj2 (Z.eqb_neq _ _) Hp).
    eexists. eexists. split; [reflexivity|]. simpl. split; [exact Hp|].
    apply in_or_app. right. exact Hin. }
  split; [unfold GameWindow_new | unfold GameWindow_new_default]; apply Hany.
Qed.

(** When the compiler rejects every shader, [CompileShader] answers the
    null handle for every file that is read without failure. *)
Lemma CompileShader_fails (path : string) (shader_type : Z) (c : config GameWindow) :
  (forall h shader, glGetShaderiv_ret gl h shader GL_COMPILE_STATUS = 0) ->
  file_content gl path <> ReadError ->
  exists evs : list call,
    CompileShader gl path shader_type c = (Returns 0, mkConfig (self c) (hist c ++ evs)).
Proof.
  intros Hfail Hread. destruct c as [this hst]. simpl.
  destruct (read_all_returns gl path Hread) as (content & Hcontent).
  destruct (string_dec content EmptyString) as [E|E].
  - subst content. rewrite (CompileShader_empty gl path Hcontent).
    exists []. rewrite app_nil_r. reflexivity.
  - pose proof (CompileShader_run path shader_type this hst content Hcontent E) as Hrun.
    simpl in Hrun. rewrite Hfail in Hrun. simpl in Hrun. rewrite Hrun.
    eexists. settle. reflexivity.
Qed.

(** When [LinkProgram] can only answer 0, the constructors' body throws. *)
Lemma GameWindow_body_null_program (width height : Z) (vertex_path fragment_path : string)
    (color : Color) (c : config GameWindow) :
  (forall c1 : config GameWindow,
     exists evs, LinkProgram gl vertex_path fragment_path c1 =
                   (Returns 0, mkConfig (self c1) (hist c1 ++ evs))) ->
  exists c', GameWindow_body glm gl width height vertex_path fragment_path color c =
               (Throws GameWindowCannotBeInitializedException, c').
Proof.
  intros Hnull. unfold GameWindow_body.
  destruct (InitializeGameWindow_keeps_program glm gl width height color c)
    as (o & c1 & Hinit & _ & [Ho|Ho]); subst o.
  - rewrite (bind_returns _ _ _ _ _ Hinit).
    destruct (Hnull c1) as (evs & Hlink).
    rewrite (bind_returns _ _ _ _ _ Hlink). run. eexists. reflexivity.
  - rewrite (bind_throws _ _ _ _ _ Hinit). eexists. reflexivity.
Qed.

(** X6.  If the compiler rejects every shader, or if linking always fails,
    both constructors throw [GameWindowCannotBeInitializedException],
    whatever the two files hold, as long as reading them does not fail. *)
Theorem failed_compile_or_link_fails_construction :
  (forall h shader, glGetShaderiv_ret gl h shader GL_COMPILE_STATUS = 0) \/
  (forall h p, glGetProgramiv_ret gl h p GL_LINK_STATUS = 0) ->
  forall (width height : Z) (vertex_path fragment_path : string) (cam : Z)
         (fov : GLfloat) (color : Color) (hst : history),
    file_content gl vertex_path <> ReadError ->
    file_content gl fragment_path <> ReadError ->
    (exists hst',
       GameWindow_new glm gl width height vertex_path fragment_path cam fov color hst =
         (Throws GameWindowCannotBeInitializedException, hst')) /\
    (exists hst',
       GameWindow_new_default glm gl width height vertex_path fragment_path cam hst =
         (Throws GameWindowCannotBeInitializedException, hst')).
Proof.
  intros Hfail width height vertex_path fragment_path cam fov color hst Hvr Hfr.
  assert (Hnull : forall c1 : config GameWindow,
            exists evs, LinkProgram gl vertex_path fragment_path c1 =
                          (Returns 0, mkConfig (self c1) (hist c1 ++ evs))).
  { intros c1. destruct Hfail as [Hcompile|Hlink].
    - destruct (CompileShader_fails vertex_path GL_VERTEX_SHADER c1 Hcompile Hvr)
        as (e1 & H1).
      destruct (CompileShader_returns gl fragment_path GL_FRAGMENT_SHADER
                  (mkConfig (self c1) (hist c1 ++ e1)) Hfr) as (f & e2 & H2 & _).
      unfold LinkProgram.
      rewrite (bind_returns _ _ _ _ _ H1), (bind_returns _ _ _ _ _ H2). simpl.
      exists (e1 ++ e2). unfold ret. rewrite app_assoc. reflexivity.
    - destruct (CompileShader_returns gl vertex_path GL_VERTEX_SHADER c1 Hvr)
        as (v & e1 & H1 & _).
      destruct (CompileShader_returns gl fragment_path GL_FRAGMENT_SHADER
                  (mkConfig (self c1) (hist c1 ++ e1)) Hfr) as (f & e2 & H2 & _).
      unfold LinkProgram.
      rewrite (bind_returns _ _ _ _ _ H1), (bind_returns _ _ _ _ _ H2). simpl.
      destruct ((v =? 0) || (f =? 0)).
      + exists (e1 ++ e2). unfold ret. rewrite app_assoc. reflexivity.
      + run. rewrite Hlink. simpl. eexists. settle. reflexivity. }
  split; [unfold GameWindow_new | unfold GameWindow_new_default];
    apply construct_throws, GameWindow_body_null_program, Hnull.
Qed.

End ConstructionFurther.

(** ** Operations on a constructed window *)

Lemma forallb_frame_not_shader (evs : list call) :
  forallb frame_call evs = true ->
  forallb (fun c => negb (shader_stage_call c)) evs = true.
Proof.
  induction evs as [|c evs IH]; simpl; [reflexivity|].
  intros H. apply andb_true_iff in H. destruct H as [Hc Hrest].
  rewrite (IH Hrest). destruct c; try discriminate Hc; reflexivity.
Qed.

Section OperationsFurther.

Variable glm : Glm.
Variable gl : Backend.

Lemma UpdateFieldOfView_run (fov : GLfloat) (this : GameWindow) (hst : history) :
  let real := glfwGetFramebufferSize_ret gl hst (window this) in
  UpdateFieldOfView glm gl fov (mkConfig this hst) =
  (Returns tt,
   mkConfig (set_perspective_projection
               (perspective glm (radians glm fov)
                  (F32.div (F32.of_int (fst real)) (F32.of_int (snd real)))
                  F32.lit_0_1 F32.lit_100_0)
               (set_field_of_view fov this))
     (hst ++ [glfwGetFramebufferSize (window this)])).
Proof. reflexivity. Qed.

(** The matrices [PrepareRender] uploads: the camera's view transform, then
    the stored projection. *)
Lemma PrepareRender_uploads (this : GameWindow) (hst : history) :
  exists (prepare : list call) (view : mat4),
    PrepareRender gl (mkConfig this hst) = (Returns tt, mkConfig this (hst ++ prepare)) /\
    forallb frame_call prepare = true /\
    map snd (matrix_uploads prepare) = [view; perspective_projection this] /\
    uniform_lookups prepare = [(program this, "view"); (program this, "projection")].
Proof.
  unfold PrepareRender. run. settle. destruct this; simpl.
  eexists. eexists. split; [reflexivity|]. repeat split.
Qed.

(** Calls of the frame protocol leave a consistent projection consistent. *)
Lemma projection_consistent_frame_calls (this : GameWindow) (hst evs : history) :
  forallb frame_call evs = true ->
  projection_consistent glm gl this hst ->
  projection_consistent glm gl this (hst ++ evs).
Proof.
  intros Hall (real & Hlast & Hproj). exists real. split; [|exact Hproj].
  rewrite last_framebuffer_size_app.
  rewrite (framebuffer_answers_other gl _ frame_call_no_query _ _ _ Hall). exact Hlast.
Qed.

(** One operation. *)
Lemma run_op_step (o : op) (this : GameWindow) (hst : history) :
  exists (this' : GameWindow) (evs : list call),
    run_op glm gl o (mkConfig this hst) = (Returns tt, mkConfig this' (hst ++ evs)) /\
    program this' = program this /\
    window this' = window this /\
    camera this' = camera this /\
    field_of_view this' = fov_step (field_of_view this) o /\
    forallb (fun c => negb (shader_stage_call c)) evs = true /\
    (projection_consistent glm gl this hst ->
     projection_consistent glm gl this' (hst ++ evs)).
Proof.
  destruct o as [|color|width height|fov| | |m|]; simpl.
  - exists this, [glfwWindowShouldClose (window this)].
    repeat split; auto. apply projection_consistent_frame_calls. reflexivity.
  - exists this, [glClearColor (r color) (g color) (b color) (a color)].
    repeat split; auto. apply projection_consistent_frame_calls. reflexivity.
  - rewrite UpdateDimensions_run. eexists. eexists. split; [reflexivity|].
    repeat split; auto. intros _. unfold projection_consistent. simpl.
    eexists. split; [|reflexivity].
    rewrite last_framebuffer_size_app. reflexivity.
  - rewrite UpdateFieldOfView_run. eexists. eexists. split; [reflexivity|].
    repeat split; auto. intros _. unfold projection_consistent. simpl.
    eexists. split; [|reflexivity].
    rewrite last_framebuffer_size_app. reflexivity.
  - exists this, [glfwPollEvents].
    repeat split; auto. apply projection_consistent_frame_calls. reflexivity.
  - destruct (PrepareRender_uploads this hst) as (prepare & view & Hrun & Hframe & _).
    exists this, prepare. split; [exact Hrun|].
    repeat split; auto.
    + apply forallb_frame_not_shader, Hframe.
    + apply projection_consistent_frame_calls, Hframe.
  - exists this, [ModelInstance_Draw m (program this)].
    repeat split; auto. apply projection_consistent_frame_calls. reflexivity.
  - exists this, [glfwSwapBuffers (window this)].
    repeat split; auto. apply projection_consistent_frame_calls. reflexivity.
Qed.

(** Any sequence of operations. *)
Lemma run_ops_steps (ops : list op) :
  forall (this : GameWindow) (hst : history),
  exists (this' : GameWindow) (evs : list call),
    run_ops glm gl ops (mkConfig this hst) = (Returns tt, mkConfig this' (hst ++ evs)) /\
    program this' = program this /\
    window this' = window this /\
    camera this' = camera this /\
    field_of_view this' = fold_left fov_step ops (field_of_view this) /\
    forallb (fun c => negb (shader_stage_call c)) evs = true /\
    (projection_consistent glm gl this hst ->
     projection_consistent glm gl this' (hst ++ evs)).
Proof.
  induction ops as [|o ops IH]; intros this hst; simpl.
  - exists this, []. unfold ret. rewrite app_nil_r. repeat split; auto.
  - destruct (run_op_step o this hst)
      as (this1 & e1 & Hrun1 & Hp1 & Hw1 & Hc1 & Hf1 & Hs1 & Hk1).
    destruct (IH this1 (hst ++ e1))
      as (this2 & e2 & Hrun2 & Hp2 & Hw2 & Hc2 & Hf2 & Hs2 & Hk2).
    exists this2, (e1 ++ e2).
    rewrite (bind_returns _ _ _ _ _ Hrun1), Hrun2, app_assoc.
    split; [reflexivity|].
    rewrite forallb_app, Hs1, Hs2, Hp2, Hw2, Hc2, Hf2, Hp1, Hw1, Hc1, Hf1.
    repeat split; auto.
Qed.

(** X7.  However the operations of a window are sequenced, they all return; the
    program, the window and the camera stay the ones the constructor left;
    the field of view is the one passed to the last [UpdateFieldOfView];
    no call of the shader stage (compile, link, create, delete, report) is
    made; and a projection that matched the field of view and the last
    reported framebuffer size still does. *)
Theorem operations_keep_the_window_consistent :
  forall (ops : list op) (this : GameWindow) (hst : history),
  exists (this' : GameWindow) (evs : list call),
    run_ops glm gl ops (mkConfig this hst) = (Returns tt, mkConfig this' (hst ++ evs)) /\
    program this' = program this /\
    window this' = window this /\
    camera this' = camera this /\
    field_of_view this' = fold_left fov_step ops (field_of_view this) /\
    forallb (fun c => negb (shader_stage_call c)) evs = true /\
    (projection_consistent glm gl this hst ->
     projection_consistent glm gl this' (hst ++ evs)).
Proof. exact run_ops_steps. Qed.

(** The calls of [PrepareRender], one by one. *)
Lemma PrepareRender_exact (this : GameWindow) (hst : history) :
  let p := program this in
  let h1 := hst ++ [glUseProgram p;
                    glClear (Z.lor GL_COLOR_BUFFER_BIT GL_DEPTH_BUFFER_BIT)] in
  let view_location := glGetUniformLocation_ret gl h1 p "view" in
  let h2 := h1 ++ [glGetUniformLocation p "view"] in
  let view := Camera_GetViewTransform_ret gl h2 (camera this) in
  let h3 := h2 ++ [Camera_GetViewTransform (camera this);
                   glUniformMatrix4fv view_location 1 GL_FALSE view] in
  let projection_location := glGetUniformLocation_ret gl h3 p "projection" in
  PrepareRender gl (mkConfig this hst) =
  (Returns tt,
   mkConfig this
     (h3 ++ [glGetUniformLocation p "projection";
             glUniformMatrix4fv projection_location 1 GL_FALSE
               (perspective_projection this)])).
Proof. simpl. unfold PrepareRender. run. settle. reflexivity. Qed.

(** X8.  The projection a frame uploads is never stale: start from a window
    a constructor returned, run any operations, then [PrepareRender].  It
    uploads two matrices.  The first is the answer of the camera passed to
    the constructor, asked at that point, and goes to the location the
    backend gave for [view]; the second is the projection for the field of
    view set last and the framebuffer size the backend reported last, and
    goes to the location the backend gave for [projection].  Both lookups
    are made in the program the constructor linked. *)
Theorem PrepareRender_uploads_a_fresh_projection :
  forall (width height : Z) (vertex_path fragment_path : string) (cam : Z)
         (fov : GLfloat) (color : Color) (before hst : history) (this : GameWindow)
         (ops : list op),
    GameWindow_new glm gl width height vertex_path fragment_path cam fov color before =
      (Returns this, hst) ->
    exists (this' : GameWindow) (evs prepare : list call) (real : Z * Z),
      run_ops glm gl ops (mkConfig this hst) = (Returns tt, mkConfig this' (hst ++ evs)) /\
      last_framebuffer_size gl (hst ++ evs) = Some real /\
      let p := program this in
      let h1 := (hst ++ evs)
                  ++ [glUseProgram p;
                      glClear (Z.lor GL_COLOR_BUFFER_BIT GL_DEPTH_BUFFER_BIT)] in
      let view_location := glGetUniformLocation_ret gl h1 p "view" in
      let h2 := h1 ++ [glGetUniformLocation p "view"] in
      let view := Camera_GetViewTransform_ret gl h2 cam in
      let h3 := h2 ++ [Camera_GetViewTransform cam;
                       glUniformMatrix4fv view_location 1 GL_FALSE view] in
      let projection_location := glGetUniformLocation_ret gl h3 p "projection" in
      let fresh :=
        perspective glm (radians glm (fold_left fov_step ops fov))
          (F32.div (F32.of_int (fst real)) (F32.of_int (snd real)))
          F32.lit_0_1 F32.lit_100_0 in
      PrepareRender gl (mkConfig this' (hst ++ evs)) =
        (Returns tt, mkConfig this' ((hst ++ evs) ++ prepare)) /\
      (hst ++ evs) ++ prepare =
        h3 ++ [glGetUniformLocation p "projection";
               glUniformMatrix4fv projection_location 1 GL_FALSE fresh] /\
      matrix_uploads prepare = [(view_location, view); (projection_location, fresh)] /\
      uniform_lookups prepare = [(p, "view"); (p, "projection")].
Proof.
  intros width height vertex_path fragment_path cam fov color before hst this ops Hnew.
  destruct (GameWindow_new_returns glm gl _ _ _ _ _ _ _ _ _ _ Hnew)
    as (_ & linked & shader_calls & _ & Hstage & Hhist & Hthis).
  assert (Hstart : projection_consistent glm gl this hst).
  { unfold projection_consistent. subst this. simpl. eexists. split; [|reflexivity].
    rewrite Hhist. rewrite !last_framebuffer_size_app.
    rewrite (framebuffer_answers_other gl _ shader_stage_call_no_query _ _ _ Hstage).
    reflexivity. }
  assert (Hfov : field_of_view this = fov) by (subst this; reflexivity).
  assert (Hcam : camera this = cam) by (subst this; reflexivity).
  destruct (run_ops_steps ops this hst)
    as (this' & evs & Hrun & Hp & _ & Hc & Hf & _ & Hkeep).
  destruct (Hkeep Hstart) as (real & Hlast & Hproj).
  pose proof (PrepareRender_exact this' (hst ++ evs)) as Hprep. simpl in Hprep.
  rewrite Hproj, Hf, Hfov, Hp, Hc, Hcam in Hprep.
  exists this', evs.
  eexists. exists real.
  split; [exact Hrun|]. split; [exact Hlast|]. simpl.
  split; [rewrite Hprep; f_equal; f_equal; settle; reflexivity|].
  split; [settle; reflexivity|].
  split; settle; reflexivity.
Qed.

End OperationsFurther.

(** ** A framebuffer of height 0 *)

Lemma div_by_zero_not_finite (x : F32.t) :
  F32.div x (F32.of_int 0) = S754_nan \/
  exists sign : bool, F32.div x (F32.of_int 0) = S754_infinity sign.
Proof. destruct x; simpl; eauto. Qed.

(** X9.  [UpdatePerspectiveProjection] does not guard against a height of 0
    (GLFW reports a 0 by 0 framebuffer for a minimised window): the aspect
    ratio it hands to [glm::perspective] is then infinite or NaN, and NaN
    when the width is 0 as well. *)
Theorem zero_height_gives_no_finite_aspect :
  forall (glm : Glm) (width : Z) (this : GameWindow) (hst : history),
  exists aspect : GLfloat,
    UpdatePerspectiveProjection glm width 0 (mkConfig this hst) =
      (Returns tt,
       mkConfig (set_perspective_projection
                   (perspective glm (radians glm (field_of_view this)) aspect
                      F32.lit_0_1 F32.lit_100_0) this) hst) /\
    (aspect = S754_nan \/ exists sign : bool, aspect = S754_infinity sign) /\
    (width = 0 -> aspect = S754_nan).
Proof.
  intros glm width this hst.
  exists (F32.div (F32.of_int width) (F32.of_int 0)).
  split; [reflexivity|]. split; [apply div_by_zero_not_finite|].
  intros E. subst width. reflexivity.
Qed.

(** * The further theorems at work on the concrete backends *)

Lemma no_window_no_surface_witness :
  GameWindow_new_default demo_glm demo_gl_no_window 800 600
    "shaders/basic.vert" "shaders/basic.frag" 7 [] =
  (Throws GameWindowCannotBeInitializedException,
   [glfwInit;
    glfwWindowHint GLFW_CONTEXT_VERSION_MAJOR 3;
    glfwWindowHint GLFW_CONTEXT_VERSION_MINOR 3;
    glfwWindowHint GLFW_OPENGL_PROFILE GLFW_OPENGL_CORE_PROFILE;
    glfwWindowHint GLFW_OPENGL_FORWARD_COMPAT GL_TRUE;
    glfwWindowHint GLFW_RESIZABLE GL_FALSE;
    glfwCreateWindow 800 600 "OpenGL";
    cout ("Failed to create OpenGL context." ++ endl)%string;
    glfwTerminate]).
Proof.
  exact (proj2 (no_window_no_surface demo_glm demo_gl_no_window 800 600
                  "shaders/basic.vert" "shaders/basic.frag" 7 F32.lit_45_0
                  (Color_rgb F32.lit_0_0 F32.lit_0_0 F32.lit_0_0) [] eq_refl)).
Defined.

Lemma constructed_window_state_witness :
  exists (this : GameWindow) (hst' : history),
    GameWindow_new_default demo_glm demo_gl 4000 600
      "shaders/basic.vert" "shaders/basic.frag" 7 [] = (Returns this, hst') /\
    window this = 4096 /\
    field_of_view this = F32.lit_45_0 /\
    current_viewport hst' = Some (0, 0, 1920, 600) /\
    projection_consistent demo_glm demo_gl this hst'.
Proof.
  eexists. eexists. split; [vm_compute; reflexivity|].
  match goal with
  | |- window ?t = _ /\ _ /\ current_viewport ?h = _ /\ _ =>
      destruct (constructed_window_state demo_glm demo_gl 4000 600
                  "shaders/basic.vert" "shaders/basic.frag" 7 F32.lit_45_0
                  (Color_rgb F32.lit_0_0 F32.lit_0_0 F32.lit_0_0) [] h t eq_refl)
        as (Hw & _ & _ & Hf & _ & _ & _ & Hvp & Hcons)
  end.
  split; [exact Hw|]. split; [exact Hf|]. split; [exact Hvp|exact Hcons].
Defined.

Lemma CompileShader_compiles_a_nonempty_file_witness :
  read_all (file_content demo_gl) "shaders/basic.vert" =
    Returns "void main() { gl_Position = vec4(0.0); }" /\
  CompileShader demo_gl "shaders/basic.vert" GL_VERTEX_SHADER (mkConfig demo_window []) =
    (Returns 1,
     mkConfig demo_window
       [glCreateShader GL_VERTEX_SHADER;
        glShaderSource 1 "void main() { gl_Position = vec4(0.0); }";
        glCompileShader 1;
        glGetShaderiv 1 GL_COMPILE_STATUS]) /\
  exists evs : list call,
    CompileShader demo_gl_compile_fails "shaders/basic.vert" GL_VERTEX_SHADER
      (mkConfig demo_window []) = (Returns 0, mkConfig demo_window ([] ++ evs)) /\
    deleted_shaders evs = [].
Proof.
  split; [reflexivity|]. split.
  - apply (CompileShader_compiles_a_nonempty_file demo_gl "shaders/basic.vert"
             GL_VERTEX_SHADER demo_window []
             "void main() { gl_Position = vec4(0.0); }" eq_refl ltac:(discriminate)).
    vm_compute. discriminate.
  - destruct (proj2 (CompileShader_compiles_a_nonempty_file demo_gl_compile_fails
                       "shaders/basic.vert" GL_VERTEX_SHADER demo_window []
                       "void main() { gl_Position = vec4(0.0); }" eq_refl
                       ltac:(discriminate)) eq_refl)
      as (evs & Hrun & _ & Hdel).
    exists evs. split; [exact Hrun|exact Hdel].
Defined.

Lemma LinkProgram_deletes_what_it_attached_witness :
  file_content demo_gl "shaders/basic.vert" <> ReadError /\
  file_content demo_gl "shaders/basic.frag" <> ReadError /\
  file_content demo_gl "shaders/empty.glsl" <> ReadError /\
  (exists evs : list call,
     LinkProgram demo_gl "shaders/basic.vert" "shaders/basic.frag"
       (mkConfig demo_window []) = (Returns 9, mkConfig demo_window ([] ++ evs)) /\
     attached_shaders evs = [(9, 1); (9, 5)] /\
     deleted_shaders evs = [1; 5]) /\
  (exists evs : list call,
     LinkProgram demo_gl "shaders/basic.vert" "shaders/empty.glsl"
       (mkConfig demo_window []) = (Returns 0, mkConfig demo_window ([] ++ evs)) /\
     attached_shaders evs = [] /\
     deleted_shaders evs = []).
Proof.
  split; [vm_compute; discriminate|]. split; [vm_compute; discriminate|].
  split; [vm_compute; discriminate|]. split.
  - destruct (LinkProgram_deletes_what_it_attached demo_gl
                "shaders/basic.vert" "shaders/basic.frag" (mkConfig demo_window [])
                ltac:(vm_compute; discriminate) ltac:(vm_compute; discriminate))
      as (v & f & linked & c1 & c2 & evs & H1 & H2 & Hrun & _ & _ & Hboth).
    vm_compute in H1. inversion H1; subst v c1.
    vm_compute in H2. inversion H2; subst f c2.
    destruct (Hboth ltac:(discriminate) ltac:(discriminate)) as (_ & Hatt & Hdel & _).
    exists evs. split; [|split; [exact Hatt|exact Hdel]].
    rewrite Hrun. f_equal. f_equal.
    vm_compute in Hrun. inversion Hrun. reflexivity.
  - destruct (LinkProgram_deletes_what_it_attached demo_gl
                "shaders/basic.vert" "shaders/empty.glsl" (mkConfig demo_window [])
                ltac:(vm_compute; discriminate) ltac:(vm_compute; discriminate))
      as (v & f & linked & c1 & c2 & evs & H1 & H2 & Hrun & _ & Hnull & _).
    vm_compute in H1. inversion H1; subst v c1.
    vm_compute in H2. inversion H2; subst f c2.
    destruct (Hnull (or_intror eq_refl)) as (Hlinked & _ & Hdel & Hatt & _).
    exists evs. subst linked. split; [exact Hrun|split; [exact Hatt|exact Hdel]].
Defined.

Lemma demo_gl_always_succeeds : always_succeeds demo_gl.
Proof.
  unfold always_succeeds, demo_gl, demo_gl_with, fresh_handle. simpl.
  repeat split; intros; try discriminate; lia.
Defined.

Lemma construction_succeeds_when_nothing_fails_witness :
  exists (this : GameWindow) (hst' : history),
    GameWindow_new_default demo_glm demo_gl 800 600
      "shaders/basic.vert" "shaders/basic.frag" 7 [] = (Returns this, hst') /\
    program this <> 0 /\ In (glLinkProgram (program this)) hst'.
Proof.
  exact (proj2 (construction_succeeds_when_nothing_fails demo_glm demo_gl 800 600
                  "shaders/basic.vert" "shaders/basic.frag" 7 F32.lit_45_0
                  (Color_rgb F32.lit_0_0 F32.lit_0_0 F32.lit_0_0) []
                  "void main() { gl_Position = vec4(0.0); }" "void main() { }"
                  demo_gl_always_succeeds
                  eq_refl ltac:(discriminate) eq_refl ltac:(discriminate))).
Defined.

Lemma failed_compile_or_link_fails_construction_witness :
  (exists hst',
     GameWindow_new_default demo_glm demo_gl_compile_fails 800 600
       "shaders/basic.vert" "shaders/basic.frag" 7 [] =
       (Throws GameWindowCannotBeInitializedException, hst')) /\
  (exists hst',
     GameWindow_new_default demo_glm demo_gl_link_fails 800 600
       "shaders/basic.vert" "shaders/basic.frag" 7 [] =
       (Throws GameWindowCannotBeInitializedException, hst')).
Proof.
  split.
  - exact (proj2 (failed_compile_or_link_fails_construction demo_glm demo_gl_compile_fails
                    (or_introl (fun _ _ => eq_refl)) 800 600
                    "shaders/basic.vert" "shaders/basic.frag" 7 F32.lit_45_0
                    (Color_rgb F32.lit_0_0 F32.lit_0_0 F32.lit_0_0) []
                    ltac:(vm_compute; discriminate) ltac:(vm_compute; discriminate))).
  - exact (proj2 (failed_compile_or_link_fails_construction demo_glm demo_gl_link_fails
                    (or_intror (fun _ _ => eq_refl)) 800 600
                    "shaders/basic.vert" "shaders/basic.frag" 7 F32.lit_45_0
                    (Color_rgb F32.lit_0_0 F32.lit_0_0 F32.lit_0_0) []
                    ltac:(vm_compute; discriminate) ltac:(vm_compute; discriminate))).
Defined.

Lemma operations_keep_the_window_consistent_witness :
  let start := snd (UpdateDimensions demo_glm demo_gl 800 600 (mkConfig demo_window [])) in
  projection_consistent demo_glm demo_gl (self start) (hist start) /\
  exists (this' : GameWindow) (evs : list call),
    run_ops demo_glm demo_gl
      [OpUpdateFieldOfView F32.lit_100_0; OpPrepareRender; OpRenderModel 1;
       OpFinishRender; OpIsRunning; OpUpdateDimensions 4000 600]
      (mkConfig (self start) (hist start)) =
      (Returns tt, mkConfig this' (hist start ++ evs)) /\
    program this' = 20 /\
    field_of_view this' = F32.lit_100_0 /\
    projection_consistent demo_glm demo_gl this' (hist start ++ evs).
Proof.
  intros start.
  assert (Hstart : projection_consistent demo_glm demo_gl (self start) (hist start)).
  { exists (800, 600). split; vm_compute; reflexivity. }
  split; [exact Hstart|].
  destruct (operations_keep_the_window_consistent demo_glm demo_gl
              [OpUpdateFieldOfView F32.lit_100_0; OpPrepareRender; OpRenderModel 1;
               OpFinishRender; OpIsRunning; OpUpdateDimensions 4000 600]
              (self start) (hist start))
    as (this' & evs & Hrun & Hp & _ & _ & Hf & _ & Hkeep).
  exists this', evs. split; [exact Hrun|]. split; [exact Hp|].
  split; [exact Hf|exact (Hkeep Hstart)].
Defined.

Lemma PrepareRender_uploads_a_fresh_projection_witness :
  exists (this : GameWindow) (hst : history),
    GameWindow_new_default demo_glm demo_gl 800 600
      "shaders/basic.vert" "shaders/basic.frag" 7 [] = (Returns this, hst) /\
    exists (this' : GameWindow) (evs prepare : list call),
      run_ops demo_glm demo_gl
        [OpUpdateFieldOfView F32.lit_100_0; OpUpdateDimensions 4000 600]
        (mkConfig this hst) = (Returns tt, mkConfig this' (hst ++ evs)) /\
      PrepareRender demo_gl (mkConfig this' (hst ++ evs)) =
        (Returns tt, mkConfig this' ((hst ++ evs) ++ prepare)) /\
      matrix_uploads prepare =
        [(4, mat4_default demo_glm);
         (10, perspective demo_glm F32.lit_100_0
                (F32.div (F32.of_int 1920) (F32.of_int 600)) F32.lit_0_1 F32.lit_100_0)].
Proof.
  eexists. eexists. split; [vm_compute; reflexivity|].
  match goal with
  | |- exists this' evs prepare, run_ops _ _ ?ops (mkConfig ?t ?h) = _ /\ _ =>
      destruct (PrepareRender_uploads_a_fresh_projection demo_glm demo_gl 800 600
                  "shaders/basic.vert" "shaders/basic.frag" 7 F32.lit_45_0
                  (Color_rgb F32.lit_0_0 F32.lit_0_0 F32.lit_0_0) [] h t ops eq_refl)
        as (this' & evs & prepare & real & Hrun & Hlast & Hprep & _ & Hup & _)
  end.
  exists this', evs, prepare.
  split; [exact Hrun|]. split; [exact Hprep|].
  rewrite Hup.
  assert (Hreal : real = (1920, 600)).
  { vm_compute in Hrun. inversion Hrun; subst.
    vm_compute in Hlast. inversion Hlast. reflexivity. }
  subst real. reflexivity.
Defined.

Lemma RemoveTexture_forgets_handle_witness :
  (exists m', RemoveTexture 5 (mkConfig (Material_new_default 5 5 F32.lit_1_0) []) =
                (Returns tt, mkConfig m' []) /\
              diffuse_handle m' = 0 /\ specular_handle m' = 0 /\
              diffuse_handle m' <> 5 /\ specular_handle m' <> 5) /\
  (exists m', RemoveTexture 0 (mkConfig (Material_new_default 5 9 F32.lit_1_0) []) =
                (Returns tt, mkConfig m' []) /\
              m' = Material_new_default 5 9 F32.lit_1_0).
Proof.
  split.
  - destruct (RemoveTexture_forgets_handle (Material_new_default 5 5 F32.lit_1_0) 5 [])
      as (m' & Hrun & Hgone & Hboth & _).
    exists m'. split; [exact Hrun|].
    destruct (Hboth eq_refl eq_refl) as [Hd Hs].
    destruct (Hgone ltac:(discriminate)) as [Hnd Hns].
    repeat split; assumption.
  - destruct (RemoveTexture_forgets_handle (Material_new_default 5 9 F32.lit_1_0) 0 [])
      as (m' & Hrun & _ & _ & _ & _ & Hsame).
    exists m'. split; [exact Hrun|exact (Hsame eq_refl)].
Defined.

Lemma removed_texture_is_never_bound_witness :
  exists (m' : Material) (evs : list call),
    bind (RemoveTexture 9) (fun _ => UseMaterial demo_gl 20)
      (mkConfig (Material_new_default 5 9 F32.lit_1_0) []) =
      (Returns tt, mkConfig m' ([] ++ evs)) /\
    ~ In (GL_TEXTURE1, GL_TEXTURE_2D, 9) (texture_binds GL_TEXTURE0 evs).
Proof.
  destruct (removed_texture_is_never_bound demo_gl (Material_new_default 5 9 F32.lit_1_0)
              9 20 []) as (m' & evs & Hrun & Hnever).
  exists m', evs. split; [exact Hrun|apply Hnever].
Defined.

Lemma zero_height_gives_no_finite_aspect_witness :
  exists aspect : GLfloat,
    UpdatePerspectiveProjection demo_glm 0 0 (mkConfig demo_window []) =
      (Returns tt,
       mkConfig (set_perspective_projection
                   (perspective demo_glm F32.lit_45_0 aspect F32.lit_0_1 F32.lit_100_0)
                   demo_window) []) /\
    aspect = S754_nan.
Proof.
  destruct (zero_height_gives_no_finite_aspect demo_glm 0 demo_window [])
    as (aspect & Hrun & _ & Hnan).
  exists aspect. split; [exact Hrun|exact (Hnan eq_refl)].
Defined.
